(** * Deferred account creation (amp-subscriptions 0.1)

    A shallow embedding of
    [extensions/amp-subscriptions/0.1/deferred-account-flow.js]:
    the class [DeferredAccountFlow], its storage-key derivation, its two
    storage wrappers, the account-existence check and the [run] flow.

    Promise-returning methods become values of type [Async A]: the
    collaborator calls the method makes, in program order, together with
    the final state of the promise it returns. *)

From Stdlib Require Import List String Ascii NArith ZArith Bool Lia.
From Stdlib.Strings Require Import Byte.
Import ListNotations.
Local Open Scope string_scope.
Local Open Scope list_scope.

Set Implicit Arguments.
Set Warnings "-register-all".

(** ** JavaScript values *)

Module Js.

(** The values that travel through the flow: what the store hands back,
    what the existence endpoint answers, what the consent prompt resolves
    to. An object is the list of its own properties. Numbers are kept
    integral: the flow only ever tests a value for truthiness. *)
Inductive Val : Type :=
| VUndefined
| VNull
| VBool (b : bool)
| VNum (n : Z)
| VStr (s : string)
| VObj (props : list (string * Val)).

(** What a [throw] or a rejected promise carries. *)
Inductive Exn : Type :=
| TypeError
| RangeError
| InvalidCharacterError
| Reason (v : Val).

(** A string as the language has it: its UTF-16 code units (a code
    unit is below 2^16; nothing here depends on that bound). The text
    that goes through [btoa] is kept in this form; keys, URLs and the
    other texts of the flow are only passed along and stay [string]s. *)
Definition CodeUnits : Type := list N.

Definition units (s : string) : CodeUnits :=
  map N_of_ascii (list_ascii_of_string s).

(** [ToBoolean], as used by [if (x)]. *)
Definition ToBoolean (v : Val) : bool :=
  match v with
  | VUndefined | VNull => false
  | VBool b => b
  | VNum n => negb (n =? 0)%Z
  | VStr s => negb (s =? "")
  | VObj _ => true
  end.

(** [x !== undefined]. *)
Definition is_defined (v : Val) : bool :=
  match v with VUndefined => false | _ => true end.

Fixpoint own_property (props : list (string * Val)) (name : string) : Val :=
  match props with
  | [] => VUndefined
  | (k, v) :: rest => if k =? name then v else own_property rest name
  end.

(** [v.name] for a name that no built-in prototype defines: a [TypeError]
    on [undefined] and [null], [undefined] on the other primitives, the
    own property on an object. *)
Definition Get (v : Val) (name : string) : Exn + Val :=
  match v with
  | VUndefined | VNull => inl TypeError
  | VObj props => inr (own_property props name)
  | VBool _ | VNum _ | VStr _ => inr VUndefined
  end.


(** [s || null] for a string-or-absent constructor argument. *)
Definition or_null (s : option string) : option string :=
  match s with
  | Some u => if u =? "" then None else Some u
  | None => None
  end.


End Js.

(** ** The encoding built-ins used by the key derivation *)

Module Base64.

Definition alphabet : string :=
  "ABCDEFGHIJKLMNOPQRSTUVWXYZabcdefghijklmnopqrstuvwxyz0123456789+/".

Definition digit (n : N) : ascii :=
  match String.get (N.to_nat n) alphabet with
  | Some c => c
  | None => "="%char
  end.

Definition code (c : ascii) : N := N_of_ascii c.

(** The encoding of a binary string (code units below 256, which is
    what [string] holds): three bytes become four digits, a final group
    of one or two bytes is padded with [=]. *)
Fixpoint encode (s : string) : string :=
  match s with
  | EmptyString => EmptyString
  | String a EmptyString =>
      String (digit (code a / 4))
        (String (digit ((code a mod 4) * 16)) "==")
  | String a (String b EmptyString) =>
      String (digit (code a / 4))
        (String (digit ((code a mod 4) * 16 + code b / 16))
           (String (digit ((code b mod 16) * 4)) "="))
  | String a (String b (String c rest)) =>
      String (digit (code a / 4))
        (String (digit ((code a mod 4) * 16 + code b / 16))
           (String (digit ((code b mod 16) * 4 + code c / 64))
              (String (digit (code c mod 64)) (encode rest))))
  end.

Definition binary (s : Js.CodeUnits) : bool :=
  forallb (fun u => (u <=? 255)%N) s.

Definition to_binary (s : Js.CodeUnits) : string :=
  fold_right (fun u rest => String (ascii_of_N u) rest) EmptyString s.

(** [btoa]: an [InvalidCharacterError] when a code unit is above 255,
    the encoding of the binary string otherwise. *)
Definition btoa (s : Js.CodeUnits) : Js.Exn + string :=
  if binary s then inr (encode (to_binary s))
  else inl Js.InvalidCharacterError.

End Base64.

Module Number.

(** The result of [Number(s)], as far as [ToIndex] looks at it. *)
Inductive t : Type :=
| NaN
| Infinity
| Int (n : N).

Definition digit_of (base : N) (c : ascii) : option N :=
  let x := N_of_ascii c in
  let v :=
    if (48 <=? x)%N && (x <=? 57)%N then Some (x - 48)%N
    else if (97 <=? x)%N && (x <=? 102)%N then Some (x - 87)%N
    else if (65 <=? x)%N && (x <=? 70)%N then Some (x - 55)%N
    else None in
  match v with
  | Some d => if (d <? base)%N then Some d else None
  | None => None
  end.

(** A non-empty run of digits in [base], read to the end of the string. *)
Fixpoint digits_from (base : N) (acc : N) (s : string) : option N :=
  match s with
  | EmptyString => Some acc
  | String c rest =>
      match digit_of base c with
      | Some d => digits_from base (acc * base + d) rest
      | None => None
      end
  end.

Definition all_digits (base : N) (s : string) : option N :=
  match s with
  | EmptyString => None
  | _ => digits_from base 0 s
  end.

(** [DecimalDigits ExponentPart?], the exponent written [e], [E], with an
    optional [+]. Returns the mantissa and what follows it. *)
Fixpoint mantissa (acc : N) (s : string) : N * string :=
  match s with
  | EmptyString => (acc, EmptyString)
  | String c rest =>
      match digit_of 10 c with
      | Some d => mantissa (acc * 10 + d) rest
      | None => (acc, s)
      end
  end.

Definition exponent (s : string) : option N :=
  match s with
  | EmptyString => Some 0%N
  | String c rest =>
      if (Ascii.eqb c "e" || Ascii.eqb c "E")%bool then
        match rest with
        | String "+" rest' => all_digits 10 rest'
        | _ => all_digits 10 rest
        end
      else None
  end.

Definition unsigned_decimal (s : string) : t :=
  if s =? "Infinity" then Infinity
  else
    match s with
    | EmptyString => NaN
    | String c _ =>
        match digit_of 10 c with
        | None => NaN
        | Some _ =>
            let '(m, rest) := mantissa 0 s in
            match exponent rest with
            | Some e => Int (m * 10 ^ e)
            | None => NaN
            end
        end
    end.

Definition non_decimal (s : string) : option t :=
  match s with
  | String "0" (String p rest) =>
      let base :=
        if (Ascii.eqb p "x" || Ascii.eqb p "X")%bool then Some 16%N
        else if (Ascii.eqb p "o" || Ascii.eqb p "O")%bool then Some 8%N
        else if (Ascii.eqb p "b" || Ascii.eqb p "B")%bool then Some 2%N
        else None in
      match base with
      | Some b =>
          Some (match all_digits b rest with Some n => Int n | None => NaN end)
      | None => None
      end
  | _ => None
  end.

(** [StringToNumber] on the output alphabet of [btoa]
    ([A-Z a-z 0-9 + / =]). That alphabet has no white space, no [-] and
    no [.], so a numeric literal is the empty string, a hexadecimal,
    octal or binary integer, or an optionally [+]-signed [Infinity] or
    decimal integer with an optional non-negative exponent; any other
    string is [NaN]. Every such literal denotes a natural number, kept
    exact here. *)
Definition of_string (s : string) : t :=
  match s with
  | EmptyString => Int 0
  | String "+" rest => unsigned_decimal rest
  | _ =>
      match non_decimal s with
      | Some r => r
      | None => unsigned_decimal s
      end
  end.

(** [ToIndex]: [NaN] is index 0; an index above 2^53 - 1 is a
    [RangeError]. *)
Definition ToIndex (n : t) : Js.Exn + N :=
  match n with
  | NaN => inr 0%N
  | Infinity => inl Js.RangeError
  | Int k => if (k <=? 2 ^ 53 - 1)%N then inr k else inl Js.RangeError
  end.

End Number.

Definition ArrayBuffer : Type := list byte.

(** [new ArrayBuffer(length)] with a string argument: the argument goes
    through [ToIndex] and the buffer is that many zero bytes (the
    allocation itself is taken to succeed). *)
Definition ArrayBuffer_new (length : string) : Js.Exn + ArrayBuffer :=
  match Number.ToIndex (Number.of_string length) with
  | inl e => inl e
  | inr n => inr (repeat x00 (N.to_nat n))
  end.

(** [String(buffer)]: [Object.prototype.toString] with the [ArrayBuffer]
    tag, whatever the bytes are. *)
Definition ArrayBuffer_toString (buffer : ArrayBuffer) : Js.CodeUnits :=
  Js.units "[object ArrayBuffer]".


(** ** Promises and the calls made while they settle *)

(** The state in which a promise handed out by a collaborator ends up:
    the store may be missing, the network may fail, the user may leave the
    consent prompt unanswered. *)
Inductive PromiseState (A : Type) : Type :=
| Resolved (value : A)
| Failed (reason : Js.Exn)
| Unsettled.
Arguments Failed {A} reason.
Arguments Unsettled {A}.

(** What calling a method of the flow comes to: the promise it returns is
    fulfilled, rejected or left pending, or the call throws before it
    returns a promise. *)
Inductive Outcome (A : Type) : Type :=
| Fulfilled (value : A)
| Rejected (reason : Js.Exn)
| Pending
| Threw (e : Js.Exn).
Arguments Rejected {A} reason.
Arguments Pending {A}.
Arguments Threw {A} e.

Record FetchInit : Type := {
  method : string;
  credentials : string;
  body : Js.Val
}.

(** A call to a collaborator. [Detached chain] marks the point where a
    promise chain is started and dropped: its calls come after the calls
    before the mark, and nothing after the mark waits for them. *)
Inductive Event : Type :=
| Digest (algorithm : string) (data : ArrayBuffer)
| StorageGet (key : string)
| StorageSet (key : string) (value : Js.Val)
| BuildUrl (url : option string) (useAuthData : bool)
| FetchJson (url : string) (init : FetchInit)
| ResponseJson
| Consent
| NavigateTo (url : option string)
| Detached (chain : list Event).

Definition Async (A : Type) : Type := (list Event * Outcome A)%type.

Definition trace {A} (p : Async A) : list Event := fst p.
Definition outcome {A} (p : Async A) : Outcome A := snd p.

(** Every call made, those of dropped chains included. The calls of a
    dropped chain are listed where the chain starts: their place among
    the calls that follow the mark says nothing of the order in time. *)
Fixpoint calls_of (ev : Event) : list Event :=
  match ev with
  | Detached chain => flat_map calls_of chain
  | _ => [ev]
  end.

Definition calls (t : list Event) : list Event := flat_map calls_of t.

(** How many of the calls made satisfy [p]. *)
Definition invoked (p : Event -> bool) (t : list Event) : nat :=
  List.length (filter p (calls t)).

Definition of_state {A} (s : PromiseState A) : Outcome A :=
  match s with
  | Resolved a => Fulfilled a
  | Failed e => Rejected e
  | Unsettled => Pending
  end.

(** [return v] in a callback. *)
Definition resolve {A} (a : A) : Async A := ([], Fulfilled a).

(** A promise kept in a field. *)
Definition settled {A} (s : PromiseState A) : Async A := ([], of_state s).

(** A collaborator method that returns a promise. *)
Definition invoke {A} (ev : Event) (s : PromiseState A) : Async A :=
  ([ev], of_state s).

(** The body of a [then] or [catch] callback: an exception thrown in it
    rejects the derived promise. *)
Definition callback {A} (p : Async A) : Async A :=
  match p with
  | (t, Threw e) => (t, Rejected e)
  | _ => p
  end.

(** [p.then(h)]. *)
Definition then_ {A B} (p : Async A) (h : A -> Async B) : Async B :=
  match p with
  | (t, Fulfilled a) => let '(t', o) := callback (h a) in (t ++ t', o)
  | (t, Rejected e) => (t, Rejected e)
  | (t, Pending) => (t, Pending)
  | (t, Threw e) => (t, Threw e)
  end.

(** [p.catch(h)]. *)
Definition catch_ {A} (p : Async A) (h : Js.Exn -> Async A) : Async A :=
  match p with
  | (t, Rejected e) => let '(t', o) := callback (h e) in (t ++ t', o)
  | _ => p
  end.

(** An expression that may throw, then the rest of the body. *)
Definition try_ {A B} (x : Js.Exn + A) (k : A -> Async B) : Async B :=
  match x with
  | inl e => ([], Threw e)
  | inr a => k a
  end.

(** The statement [p;] for a promise-returning call whose promise is
    dropped, then the rest of the body [k]: only an exception thrown by
    the call itself reaches the body. *)
Definition detach {A B} (p : Async A) (k : Async B) : Async B :=
  match p with
  | (t, Threw e) => (t, Threw e)
  | (t, _) => let '(t', o) := k in (Detached t :: t', o)
  end.

(** A synchronous collaborator call, then the rest of the body. *)
Definition seq {B} (ev : Event) (k : Async B) : Async B :=
  let '(t', o) := k in (ev :: t', o).

(** ** Collaborators *)

Module Entitlement.

(** Modelled from the spec: the [Entitlement] class and
    [stringifyForPingback] are not among the sources. An entitlement is
    an opaque object of which only the serialized forms are used.
    [json()] returns a plain object, so
    [JSON.stringify(entitlements.json())] is an object literal: a brace,
    the members, a brace. The record keeps the text of the members, any
    code units, and the pingback-safe serialization. *)
Record t : Type := {
  json_members : Js.CodeUnits;
  pingback : string
}.

Definition JSON_stringify_json (e : t) : Js.CodeUnits :=
  Js.units "{" ++ json_members e ++ Js.units "}".

End Entitlement.

Definition stringifyForPingback (e : Entitlement.t) : string :=
  Entitlement.pingback e.

Module Storage.
Record t : Type := {
  get_ : string -> PromiseState Js.Val;
  set_ : string -> Js.Val -> PromiseState unit
}.
Definition get (s : t) (key : string) : Async Js.Val :=
  invoke (StorageGet key) (get_ s key).
Definition void (s : PromiseState unit) : PromiseState Js.Val :=
  match s with
  | Resolved _ => Resolved Js.VUndefined
  | Failed e => Failed e
  | Unsettled => Unsettled
  end.
Definition set (s : t) (key : string) (value : Js.Val) : Async Js.Val :=
  invoke (StorageSet key value) (void (set_ s key value)).
End Storage.

Module Response.
Record t : Type := { json_ : PromiseState Js.Val }.
Definition json (r : t) : Async Js.Val := invoke ResponseJson (json_ r).
End Response.

Module Xhr.
Record t : Type := {
  fetchJson_ : string -> FetchInit -> PromiseState Response.t
}.
Definition fetchJson (x : t) (url : string) (init : FetchInit)
  : Async Response.t :=
  invoke (FetchJson url init) (fetchJson_ x url init).
End Xhr.

Module UrlBuilder.
Record t : Type := {
  buildUrl_ : option string -> bool -> PromiseState string
}.
Definition buildUrl (b : t) (url : option string) (useAuthData : bool)
  : Async string :=
  invoke (BuildUrl url useAuthData) (buildUrl_ b url useAuthData).
End UrlBuilder.

Module SubscriptionPlatform.
Record t : Type := {
  getServiceId : string;
  consentDeferredAccountCreation_ : PromiseState Js.Val
}.
Definition consentDeferredAccountCreation (p : t) : Async Js.Val :=
  invoke Consent (consentDeferredAccountCreation_ p).
End SubscriptionPlatform.

(** The services the constructor looks up for a document. *)
Record AmpDoc : Type := {
  xhrFor : Xhr.t;
  storageForDoc : PromiseState Storage.t;
  newUrlBuilder : string -> UrlBuilder.t
}.

(** ** The class *)

Module LOCAL_STORAGE_KEYS.
Definition HAS_PUBLISHER_ACCOUNT : string :=
  "account-exists-on-publisher-side".
Definition HAS_REJECTED_ACCOUNT_CREATION : string :=
  "user-rejected-account-creation-request".
End LOCAL_STORAGE_KEYS.
Import LOCAL_STORAGE_KEYS.

Record DeferredAccountFlow : Type := {
  xhr_ : Xhr.t;
  storage_ : PromiseState Storage.t;
  hasAssociatedAccountUrl_ : option string;
  accountCreationRedirectUrl_ : option string;
  urlBuilder_ : UrlBuilder.t;
  platform_ : SubscriptionPlatform.t
}.

(** [new DeferredAccountFlow(ampdoc, hasAssociatedAccountUrl,
    accountCreationRedirectUrl, platform)]. *)
Definition constructor (ampdoc : AmpDoc)
    (hasAssociatedAccountUrl accountCreationRedirectUrl : option string)
    (platform : SubscriptionPlatform.t) : DeferredAccountFlow :=
  {| xhr_ := xhrFor ampdoc;
     storage_ := storageForDoc ampdoc;
     hasAssociatedAccountUrl_ := Js.or_null hasAssociatedAccountUrl;
     accountCreationRedirectUrl_ := Js.or_null accountCreationRedirectUrl;
     urlBuilder_ :=
       newUrlBuilder ampdoc (SubscriptionPlatform.getServiceId platform);
     platform_ := platform |}.

(** [this.navigateTo_(url)]: hands the URL to the navigation service and
    returns nothing. *)
Definition navigateTo_ {B} (this : DeferredAccountFlow) (url : option string)
    (k : Async B) : Async B :=
  seq (NavigateTo url) k.


Section Methods.

(** The global [crypto.subtle]: absent on a page that is not a secure
    context; where present, its [digest] is taken at its contract, a
    function of the algorithm and the bytes whose promise is fulfilled
    with the hash. *)
Variable crypto_subtle : option (string -> ArrayBuffer -> ArrayBuffer).

(** [crypto.subtle.digest(algorithm, data)]: a [TypeError] when
    [crypto.subtle] is [undefined]. *)
Definition digest (algorithm : string) (data : ArrayBuffer)
  : Async ArrayBuffer :=
  match crypto_subtle with
  | Some subtle_digest =>
      invoke (Digest algorithm data) (Resolved (subtle_digest algorithm data))
  | None => ([], Threw Js.TypeError)
  end.

Definition getStorageKey_ (this : DeferredAccountFlow) (storageKey : string)
    (entitlements : Entitlement.t) : Async string :=
  try_ (Base64.btoa (Entitlement.JSON_stringify_json entitlements))
    (fun text =>
       try_ (ArrayBuffer_new text) (fun arrayBuffer =>
         then_ (digest "SHA-256" arrayBuffer) (fun hash =>
           try_ (Base64.btoa (ArrayBuffer_toString hash)) (fun encoded =>
             resolve (storageKey ++ "_" ++ encoded)%string)))).

Definition getStorageData_ (this : DeferredAccountFlow) (storageKey : string)
    (entitlements : Entitlement.t) : Async Js.Val :=
  then_ (getStorageKey_ this storageKey entitlements) (fun key =>
    catch_
      (then_ (settled (storage_ this)) (fun s => Storage.get s key))
      (fun _ =>
         (* This is fine since some AMP views don't support storage. *)
         resolve Js.VUndefined)).

Definition setStorageData_ (this : DeferredAccountFlow) (storageKey : string)
    (entitlements : Entitlement.t) (value : Js.Val) : Async Js.Val :=
  then_ (getStorageKey_ this storageKey entitlements) (fun key =>
    then_ (settled (storage_ this)) (fun s =>
      catch_ (Storage.set s key value)
        (fun _ =>
           (* This is fine since some AMP views don't support storage. *)
           resolve Js.VUndefined))).

Definition hasAssociatedUserAccount_ (this : DeferredAccountFlow)
    (entitlements : Entitlement.t) : Async Js.Val :=
  then_ (getStorageData_ this HAS_PUBLISHER_ACCOUNT entitlements)
    (fun publisherAccountLocalValue =>
       if Js.is_defined publisherAccountLocalValue then
         (* We found a cached value for the API call, return. *)
         resolve (Js.VObj [("found", publisherAccountLocalValue)])
       else
         (* Do the actual call and then store the value in storage *)
         then_
           (then_
              (then_
                 (UrlBuilder.buildUrl (urlBuilder_ this)
                    (hasAssociatedAccountUrl_ this) true)
                 (fun url =>
                    Xhr.fetchJson (xhr_ this) url
                      {| method := "POST";
                         credentials := "include";
                         body :=
                           Js.VObj
                             [("entitlements",
                               Js.VStr (stringifyForPingback entitlements))]
                      |}))
              (fun result => Response.json result))
           (fun jsonResult =>
              try_ (Js.Get jsonResult "found") (fun found =>
                detach
                  (setStorageData_ this HAS_PUBLISHER_ACCOUNT entitlements
                     found)
                  (resolve jsonResult)))).

Definition run (this : DeferredAccountFlow) (entitlements : Entitlement.t)
  : Async Js.Val :=
  (* Check if user has denied account creation already *)
  then_ (getStorageData_ this HAS_REJECTED_ACCOUNT_CREATION entitlements)
    (fun rejected =>
       if Js.ToBoolean rejected then resolve Js.VUndefined
       else
         (* Check if there is an associated user account *)
         then_ (hasAssociatedUserAccount_ this entitlements)
           (fun jsonResult =>
              try_ (Js.Get jsonResult "found") (fun found =>
                if Js.ToBoolean found then resolve Js.VUndefined
                else
                  detach
                    (then_
                       (SubscriptionPlatform.consentDeferredAccountCreation
                          (platform_ this))
                       (fun accepted =>
                          if Js.ToBoolean accepted then
                            navigateTo_ this
                              (accountCreationRedirectUrl_ this)
                              (resolve Js.VUndefined)
                          else
                            setStorageData_ this
                              HAS_REJECTED_ACCOUNT_CREATION entitlements
                              (Js.VBool true)))
                    (resolve Js.VUndefined)))).

End Methods.

(** ** What the claims speak about *)


Definition is_storage_write (ev : Event) : bool :=
  match ev with StorageSet _ _ => true | _ => false end.

Definition is_network (ev : Event) : bool :=
  match ev with
  | BuildUrl _ _ | FetchJson _ _ | ResponseJson => true
  | _ => false
  end.

Definition is_consent (ev : Event) : bool :=
  match ev with Consent => true | _ => false end.

Definition is_navigation (ev : Event) : bool :=
  match ev with NavigateTo _ => true | _ => false end.

Definition navigates_to (url : option string) (ev : Event) : bool :=
  match ev, url with
  | NavigateTo (Some u), Some u' => u =? u'
  | NavigateTo None, None => true
  | _, _ => false
  end.

Definition writes_under (key : string) (ev : Event) : bool :=
  match ev with StorageSet k _ => k =? key | _ => false end.

Definition writes_true_under (key : string) (ev : Event) : bool :=
  match ev with StorageSet k (Js.VBool true) => k =? key | _ => false end.

(** The key that [getStorageKey_] derives for a purpose when it derives
    one (see [getStorageKey_eq]): the purpose, an underscore and the
    encoded text of [String(hash)]. *)
Definition derived_key (storageKey : string) : string :=
  (storageKey ++ "_" ++ Base64.encode "[object ArrayBuffer]")%string.

(** Why the key derivation throws, if it does: [btoa] refuses the text
    of the entitlement, or there is no [crypto.subtle]. *)
Definition derivation_failure
    (crypto_subtle : option (string -> ArrayBuffer -> ArrayBuffer))
    (e : Entitlement.t) : option Js.Exn :=
  match Base64.btoa (Entitlement.JSON_stringify_json e) with
  | inl err => Some err
  | inr _ =>
      match crypto_subtle with
      | Some _ => None
      | None => Some Js.TypeError
      end
  end.


(** ** Sample collaborators *)

Module Sample.

(** A stand-in for the digest, and one that loses nothing of its input:
    the properties below hold for every function of the bytes. *)
Definition identity_digest (algorithm : string) (data : ArrayBuffer)
  : ArrayBuffer := data.

Definition dq : string := String (ascii_of_nat 34) EmptyString.

(** [{"granted":true}] and [{"granted":false}]. *)
Definition granted : Entitlement.t :=
  {| Entitlement.json_members :=
       Js.units (dq ++ "granted" ++ dq ++ ":true")%string;
     Entitlement.pingback := "granted" |}.
Definition denied : Entitlement.t :=
  {| Entitlement.json_members :=
       Js.units (dq ++ "granted" ++ dq ++ ":false")%string;
     Entitlement.pingback := "denied" |}.


Definition empty_store : Storage.t :=
  {| Storage.get_ := fun _ => Resolved Js.VUndefined;
     Storage.set_ := fun _ _ => Resolved tt |}.

(** A store whose every operation is refused. *)
Definition broken_store : Storage.t :=
  {| Storage.get_ := fun _ => Failed Js.TypeError;
     Storage.set_ := fun _ _ => Failed Js.TypeError |}.

(** A store that holds [value] under [key] and nothing else. *)
Definition store_with (key : string) (value : Js.Val) : Storage.t :=
  {| Storage.get_ := fun k => Resolved (if k =? key then value else Js.VUndefined);
     Storage.set_ := fun _ _ => Resolved tt |}.

Definition found (b : bool) : Response.t :=
  {| Response.json_ := Resolved (Js.VObj [("found", Js.VBool b)]) |}.

Definition answering (r : PromiseState Response.t) : Xhr.t :=
  {| Xhr.fetchJson_ := fun _ _ => r |}.

Definition plain_urls : UrlBuilder.t :=
  {| UrlBuilder.buildUrl_ := fun url _ =>
       Resolved (match url with Some u => u | None => "null" end) |}.

Definition ampdoc (store : PromiseState Storage.t) (xhr : Xhr.t) : AmpDoc :=
  {| xhrFor := xhr;
     storageForDoc := store;
     newUrlBuilder := fun _ => plain_urls |}.

Definition platform (consent : PromiseState Js.Val) : SubscriptionPlatform.t :=
  {| SubscriptionPlatform.getServiceId := "local";
     SubscriptionPlatform.consentDeferredAccountCreation_ := consent |}.

Definition flow (store : PromiseState Storage.t) (xhr : Xhr.t)
    (consent : PromiseState Js.Val) : DeferredAccountFlow :=
  constructor (ampdoc store xhr)
    (Some "https://pub.example/has-account")
    (Some "https://pub.example/create-account")
    (platform consent).


Definition offline : Js.Exn := Js.Reason (Js.VStr "offline").

(** Nothing cached, the request fails. *)
Definition offline_flow : DeferredAccountFlow :=
  flow (Resolved empty_store) (answering (Failed offline))
    (Resolved (Js.VBool true)).

(** The account flag is cached as [true]. *)
Definition known_account_flow : DeferredAccountFlow :=
  flow
    (Resolved (store_with (derived_key HAS_PUBLISHER_ACCOUNT) (Js.VBool true)))
    (answering (Resolved (found false)))
    (Resolved (Js.VBool true)).

(** The rejection flag is cached as [true]. *)
Definition declined_before_flow : DeferredAccountFlow :=
  flow
    (Resolved
       (store_with (derived_key HAS_REJECTED_ACCOUNT_CREATION) (Js.VBool true)))
    (answering (Resolved (found false)))
    (Resolved (Js.VBool true)).

(** Nothing cached, no account found, and the given answer to the
    prompt. *)
Definition asking_flow (consent : PromiseState Js.Val) : DeferredAccountFlow :=
  flow (Resolved empty_store) (answering (Resolved (found false))) consent.

(** No store at all. *)
Definition storeless_flow : DeferredAccountFlow :=
  flow (Failed Js.TypeError) (answering (Resolved (found false)))
    (Resolved (Js.VBool false)).

Definition failing_store_flow : DeferredAccountFlow :=
  flow (Resolved broken_store) (answering (Resolved (found false)))
    (Resolved (Js.VBool false)).

End Sample.

(** ** Further vocabulary *)

(** The request of the existence check, as [hasAssociatedUserAccount_]
    chains it after a cache miss: the URL is built with the auth data,
    the entitlement is posted to it, the response is parsed. *)
Definition existence_request (this : DeferredAccountFlow)
    (entitlements : Entitlement.t) : Async Js.Val :=
  then_
    (then_
       (UrlBuilder.buildUrl (urlBuilder_ this)
          (hasAssociatedAccountUrl_ this) true)
       (fun url =>
          Xhr.fetchJson (xhr_ this) url
            {| method := "POST";
               credentials := "include";
               body :=
                 Js.VObj
                   [("entitlements",
                     Js.VStr (stringifyForPingback entitlements))] |}))
    (fun result => Response.json result).

Definition is_storage_read (ev : Event) : bool :=
  match ev with StorageGet _ => true | _ => false end.

Definition is_fetch (ev : Event) : bool :=
  match ev with FetchJson _ _ => true | _ => false end.

Module MemoryStore.

(** A store that keeps what is set: its contents give the value under
    each key, [undefined] for a key never set, which is what [get]
    resolves to. *)
Definition t : Type := string -> Js.Val.

Definition empty : t := fun _ => Js.VUndefined.

Definition put (key : string) (value : Js.Val) (m : t) : t :=
  fun k => if k =? key then value else m k.

Definition storage (m : t) : Storage.t :=
  {| Storage.get_ := fun k => Resolved (m k);
     Storage.set_ := fun _ _ => Resolved tt |}.

Definition record (m : t) (ev : Event) : t :=
  match ev with
  | StorageSet key value => put key value m
  | _ => m
  end.

(** The contents once every [set] call of a trace has been carried
    out. *)
Definition after (events : list Event) (m : t) : t :=
  fold_left record (calls events) m.

End MemoryStore.

(** The same flow over a store with the given contents. *)
Definition with_store (this : DeferredAccountFlow) (m : MemoryStore.t)
  : DeferredAccountFlow :=
  {| xhr_ := xhr_ this;
     storage_ := Resolved (MemoryStore.storage m);
     hasAssociatedAccountUrl_ := hasAssociatedAccountUrl_ this;
     accountCreationRedirectUrl_ := accountCreationRedirectUrl_ this;
     urlBuilder_ := urlBuilder_ this;
     platform_ := platform_ this |}.

Module More.

Definition dq : string := String (ascii_of_nat 34) EmptyString.

(** An entitlement with the pingback text of [Sample.granted] and another
    content. *)
Definition other : Entitlement.t :=
  {| Entitlement.json_members :=
       Js.units (dq ++ "granted" ++ dq ++ ":null")%string;
     Entitlement.pingback := "granted" |}.

Definition answer (v : Js.Val) : Response.t :=
  {| Response.json_ := Resolved v |}.

(** A flow over a memory store, with the given answer of the endpoint and
    of the prompt. *)
Definition flow (m : MemoryStore.t) (json : Js.Val)
    (consent : PromiseState Js.Val) : DeferredAccountFlow :=
  Sample.flow (Resolved (MemoryStore.storage m))
    (Sample.answering (Resolved (answer json))) consent.

Definition not_found : Js.Val := Js.VObj [("found", Js.VBool false)].
Definition is_found : Js.Val := Js.VObj [("found", Js.VBool true)].

End More.

(** What a request made by the flow for [entitlements] must look like:
    posted with credentials to the URL that the URL builder resolved to,
    with the pingback text of the entitlement as body. *)
Definition is_existence_request (this : DeferredAccountFlow)
    (entitlements : Entitlement.t) (ev : Event) : Prop :=
  match ev with
  | FetchJson url init =>
      UrlBuilder.buildUrl_ (urlBuilder_ this)
        (hasAssociatedAccountUrl_ this) true = Resolved url
      /\ init = {| method := "POST";
                   credentials := "include";
                   body :=
                     Js.VObj
                       [("entitlements",
                         Js.VStr (stringifyForPingback entitlements))] |}
  | _ => True
  end.

(** The chain that [run] starts and drops once no account is found: the
    prompt, then the navigation or the write of the refusal. *)
Definition consent_chain
    (crypto_subtle : option (string -> ArrayBuffer -> ArrayBuffer))
    (this : DeferredAccountFlow) (entitlements : Entitlement.t)
  : Async Js.Val :=
  then_
    (SubscriptionPlatform.consentDeferredAccountCreation (platform_ this))
    (fun accepted =>
       if Js.ToBoolean accepted then
         navigateTo_ this (accountCreationRedirectUrl_ this)
           (resolve Js.VUndefined)
       else
         setStorageData_ crypto_subtle this HAS_REJECTED_ACCOUNT_CREATION
           entitlements (Js.VBool true)).

(** The calls the flow is expected to make, with their arguments. A
    value written under the key of the account flag is the [found] of
    the parsed response of the request. *)
Definition is_expected_call (this : DeferredAccountFlow)
    (entitlements : Entitlement.t) (ev : Event) : Prop :=
  match ev with
  | Digest algorithm data => algorithm = "SHA-256" /\ data = []
  | StorageGet key =>
      key = derived_key HAS_REJECTED_ACCOUNT_CREATION
      \/ key = derived_key HAS_PUBLISHER_ACCOUNT
  | StorageSet key value =>
      (key = derived_key HAS_PUBLISHER_ACCOUNT
       /\ exists jsonResult,
            outcome (existence_request this entitlements)
            = Fulfilled jsonResult
            /\ Js.Get jsonResult "found" = inr value)
      \/ (key = derived_key HAS_REJECTED_ACCOUNT_CREATION
          /\ value = Js.VBool true)
  | BuildUrl url useAuthData =>
      url = hasAssociatedAccountUrl_ this /\ useAuthData = true
  | NavigateTo url => url = accountCreationRedirectUrl_ this
  | FetchJson _ _ | ResponseJson | Consent => True
  | Detached _ => False
  end.

(** ** Properties *)

Lemma string_length_append (a b : string) :
  String.length (a ++ b) = String.length a + String.length b.
Proof.
  induction a as [|c a IH]; simpl; [reflexivity | now rewrite IH].
Qed.

Lemma string_append_inv_tail (s a b : string) :
  (a ++ s)%string = (b ++ s)%string -> a = b.
Proof.
  revert b; induction a as [|c a IH]; intros [|d b] H; simpl in H.
  - reflexivity.
  - apply (f_equal String.length) in H; simpl in H.
    rewrite string_length_append in H. lia.
  - apply (f_equal String.length) in H; simpl in H.
    rewrite string_length_append in H. lia.
  - injection H as -> H. f_equal. now apply IH.
Qed.

Lemma encode_first_digit (a : ascii) (s : string) :
  exists r, Base64.encode (String a s)
            = String (Base64.digit (Base64.code a / 4)) r.
Proof.
  destruct s as [|b [|c s]]; simpl; eexists; reflexivity.
Qed.

(** An object literal that [btoa] accepts is encoded to a string that
    starts with [e]. *)
Lemma btoa_object_literal (e : Entitlement.t) (text : string) :
  Base64.btoa (Entitlement.JSON_stringify_json e) = inr text ->
  exists r, text = String "e" r.
Proof.
  unfold Base64.btoa.
  destruct (Base64.binary _); [|discriminate]. intros [= <-].
  unfold Entitlement.JSON_stringify_json.
  change (Base64.to_binary
            (Js.units "{" ++ Entitlement.json_members e ++ Js.units "}"))
    with (String "{"
            (Base64.to_binary (Entitlement.json_members e ++ Js.units "}"))).
  destruct (encode_first_digit "{"
              (Base64.to_binary (Entitlement.json_members e ++ Js.units "}")))
    as [r Hr].
  exists r. exact Hr.
Qed.

(** No numeric literal starts with [e]. *)
Lemma of_string_e (r : string) : Number.of_string (String "e" r) = Number.NaN.
Proof. reflexivity. Qed.

(** The buffer built from an entitlement is always the empty one: the
    encoded text is read as a length, and it is not a number. *)
Lemma ArrayBuffer_of_entitlement (e : Entitlement.t) (text : string) :
  Base64.btoa (Entitlement.JSON_stringify_json e) = inr text ->
  ArrayBuffer_new text = inr [].
Proof.
  intros Htext. destruct (btoa_object_literal e Htext) as [r ->].
  unfold ArrayBuffer_new. rewrite of_string_e. reflexivity.
Qed.

Section Properties.

Variable crypto : option (string -> ArrayBuffer -> ArrayBuffer).

(** *** The key derivation and the two storage wrappers *)

Lemma getStorageKey_eq this storageKey e :
  getStorageKey_ crypto this storageKey e
  = match derivation_failure crypto e with
    | Some err => ([], Threw err)
    | None => ([Digest "SHA-256" []], Fulfilled (derived_key storageKey))
    end.
Proof.
  unfold getStorageKey_, derivation_failure.
  destruct (Base64.btoa (Entitlement.JSON_stringify_json e))
    as [err|text] eqn:Htext; cbn [try_]; [reflexivity|].
  rewrite (ArrayBuffer_of_entitlement e Htext). cbn [try_].
  unfold digest. destruct crypto; reflexivity.
Qed.

Lemma getStorageData_eq this storageKey e :
  getStorageData_ crypto this storageKey e
  = match derivation_failure crypto e with
    | Some err => ([], Threw err)
    | None =>
        match storage_ this with
        | Resolved s =>
            ([Digest "SHA-256" []; StorageGet (derived_key storageKey)],
             match Storage.get_ s (derived_key storageKey) with
             | Resolved v => Fulfilled v
             | Failed _ => Fulfilled Js.VUndefined
             | Unsettled => Pending
             end)
        | Failed _ => ([Digest "SHA-256" []], Fulfilled Js.VUndefined)
        | Unsettled => ([Digest "SHA-256" []], Pending)
        end
    end.
Proof.
  unfold getStorageData_. rewrite getStorageKey_eq.
  destruct (derivation_failure crypto e); [reflexivity|].
  destruct (storage_ this) as [s| |]; try reflexivity.
  unfold then_, catch_, settled, Storage.get, invoke, callback, resolve, of_state.
  destruct (Storage.get_ s (derived_key storageKey)); reflexivity.
Qed.

Lemma setStorageData_eq this storageKey e value :
  setStorageData_ crypto this storageKey e value
  = match derivation_failure crypto e with
    | Some err => ([], Threw err)
    | None =>
        match storage_ this with
        | Resolved s =>
            ([Digest "SHA-256" []; StorageSet (derived_key storageKey) value],
             match Storage.set_ s (derived_key storageKey) value with
             | Resolved _ | Failed _ => Fulfilled Js.VUndefined
             | Unsettled => Pending
             end)
        | Failed err => ([Digest "SHA-256" []], Rejected err)
        | Unsettled => ([Digest "SHA-256" []], Pending)
        end
    end.
Proof.
  unfold setStorageData_. rewrite getStorageKey_eq.
  destruct (derivation_failure crypto e); [reflexivity|].
  destruct (storage_ this) as [s| |]; try reflexivity.
  unfold then_, catch_, settled, Storage.set, Storage.void, invoke, callback,
    resolve, of_state.
  destruct (Storage.set_ s (derived_key storageKey) value); reflexivity.
Qed.

(** The same, for an entitlement whose key can be derived. *)
Lemma getStorageData_ok this storageKey e :
  derivation_failure crypto e = None ->
  getStorageData_ crypto this storageKey e
  = match storage_ this with
    | Resolved s =>
        ([Digest "SHA-256" []; StorageGet (derived_key storageKey)],
         match Storage.get_ s (derived_key storageKey) with
         | Resolved v => Fulfilled v
         | Failed _ => Fulfilled Js.VUndefined
         | Unsettled => Pending
         end)
    | Failed _ => ([Digest "SHA-256" []], Fulfilled Js.VUndefined)
    | Unsettled => ([Digest "SHA-256" []], Pending)
    end.
Proof. intros H. now rewrite getStorageData_eq, H. Qed.

Lemma setStorageData_ok this storageKey e value :
  derivation_failure crypto e = None ->
  setStorageData_ crypto this storageKey e value
  = match storage_ this with
    | Resolved s =>
        ([Digest "SHA-256" []; StorageSet (derived_key storageKey) value],
         match Storage.set_ s (derived_key storageKey) value with
         | Resolved _ | Failed _ => Fulfilled Js.VUndefined
         | Unsettled => Pending
         end)
    | Failed err => ([Digest "SHA-256" []], Rejected err)
    | Unsettled => ([Digest "SHA-256" []], Pending)
    end.
Proof. intros H. now rewrite setStorageData_eq, H. Qed.

(** A key that is derived for one purpose is derived for every purpose,
    and a read or a write that does not throw has derived its key. *)
Lemma getStorageKey_derivable this storageKey e key :
  outcome (getStorageKey_ crypto this storageKey e) = Fulfilled key ->
  derivation_failure crypto e = None /\ key = derived_key storageKey.
Proof.
  rewrite getStorageKey_eq.
  destruct (derivation_failure crypto e); cbn [outcome snd];
    [discriminate|]. intros [= <-]. split; reflexivity.
Qed.

Lemma getStorageData_derivable this storageKey e :
  match outcome (getStorageData_ crypto this storageKey e) with
  | Threw err => derivation_failure crypto e = Some err
  | _ => derivation_failure crypto e = None
  end.
Proof.
  rewrite getStorageData_eq.
  destruct (derivation_failure crypto e); [reflexivity|].
  destruct (storage_ this) as [s| |]; [destruct (Storage.get_ s _)| |];
    reflexivity.
Qed.

Lemma read_derivable this storageKey e v :
  outcome (getStorageData_ crypto this storageKey e) = Fulfilled v ->
  derivation_failure crypto e = None.
Proof.
  intros H. pose proof (getStorageData_derivable this storageKey e) as Hd.
  now rewrite H in Hd.
Qed.

Lemma pending_read_derivable this storageKey e :
  outcome (getStorageData_ crypto this storageKey e) = Pending ->
  derivation_failure crypto e = None.
Proof.
  intros H. pose proof (getStorageData_derivable this storageKey e) as Hd.
  now rewrite H in Hd.
Qed.

(** C5, on the code: the derived key does not depend on the entitlement.
    Two entitlements whose serializations differ get the same key under
    the same purpose, whatever the digest function is, and so do any two
    entitlements for which a key is derived at all. *)
Theorem getStorageKey_ignores_entitlement this storageKey :
  Entitlement.JSON_stringify_json Sample.granted
    <> Entitlement.JSON_stringify_json Sample.denied
  /\ getStorageKey_ crypto this storageKey Sample.granted
     = getStorageKey_ crypto this storageKey Sample.denied
  /\ (forall subtle_digest,
         crypto = Some subtle_digest ->
         outcome (getStorageKey_ crypto this storageKey Sample.granted)
         = Fulfilled (derived_key storageKey))
  /\ forall e1 e2 key1 key2,
       outcome (getStorageKey_ crypto this storageKey e1) = Fulfilled key1 ->
       outcome (getStorageKey_ crypto this storageKey e2) = Fulfilled key2 ->
       getStorageKey_ crypto this storageKey e1
       = getStorageKey_ crypto this storageKey e2
       /\ key1 = key2.
Proof.
  split; [discriminate|]. split; [|split].
  - rewrite !getStorageKey_eq. unfold derivation_failure.
    destruct crypto; reflexivity.
  - intros d ->. reflexivity.
  - intros e1 e2 key1 key2 H1 H2.
    apply getStorageKey_derivable in H1, H2.
    destruct H1 as [Hd1 ->], H2 as [Hd2 ->].
    rewrite !getStorageKey_eq, Hd1, Hd2. split; reflexivity.
Qed.

(** C6, on the code: key derivation is deterministic and separates
    purposes, but the part after the underscore of a derived key is the
    encoding of the fixed text [[object ArrayBuffer]], the same for every
    entitlement and every digest function: it is not a digest of the
    entitlement. *)
Theorem getStorageKey_form this :
  (forall p e1 e2,
      Entitlement.JSON_stringify_json e1 = Entitlement.JSON_stringify_json e2 ->
      getStorageKey_ crypto this p e1 = getStorageKey_ crypto this p e2)
  /\ (forall p1 p2 e key1 key2,
         p1 <> p2 ->
         outcome (getStorageKey_ crypto this p1 e) = Fulfilled key1 ->
         outcome (getStorageKey_ crypto this p2 e) = Fulfilled key2 ->
         key1 <> key2)
  /\ (forall p e,
         (forall subtle_digest text,
             crypto = Some subtle_digest ->
             Base64.btoa (Entitlement.JSON_stringify_json e) = inr text ->
             outcome (getStorageKey_ crypto this p e)
             = Fulfilled (p ++ "_" ++ "W29iamVjdCBBcnJheUJ1ZmZlcl0=")%string)
         /\ forall key,
              outcome (getStorageKey_ crypto this p e) = Fulfilled key ->
              key = (p ++ "_" ++ "W29iamVjdCBBcnJheUJ1ZmZlcl0=")%string)
  /\ (forall p subtle_digest other_digest,
         outcome (getStorageKey_ (Some subtle_digest) this p Sample.granted)
         = Fulfilled (p ++ "_" ++ "W29iamVjdCBBcnJheUJ1ZmZlcl0=")%string
         /\ outcome (getStorageKey_ (Some subtle_digest) this p Sample.granted)
            = outcome
                (getStorageKey_ (Some other_digest) this p Sample.denied)).
Proof.
  split; [|split; [|split]].
  - intros p e1 e2 Hjson. rewrite !getStorageKey_eq.
    unfold derivation_failure. now rewrite Hjson.
  - intros p1 p2 e key1 key2 Hp H1 H2.
    apply getStorageKey_derivable in H1, H2.
    destruct H1 as [_ ->], H2 as [_ ->]. intros H. apply Hp.
    unfold derived_key in H. now apply string_append_inv_tail in H.
  - intros p e. split.
    + intros d text Hcrypto Htext. rewrite getStorageKey_eq.
      unfold derivation_failure. rewrite Htext, Hcrypto. reflexivity.
    + intros key H. apply getStorageKey_derivable in H.
      destruct H as [_ ->]. reflexivity.
  - intros p d d'. split; reflexivity.
Qed.


(** C8, on the code: a write whose [set] call rejects resolves all the
    same, but a write with the store itself absent rejects: the [catch]
    is on the [set] call alone, inside the callback that a rejected
    store promise never runs. *)
Theorem setStorageData_rejects_without_store this storageKey e value :
  (forall s key err,
      storage_ this = Resolved s ->
      outcome (getStorageKey_ crypto this storageKey e) = Fulfilled key ->
      Storage.set_ s key value = Failed err ->
      outcome (setStorageData_ crypto this storageKey e value)
      = Fulfilled Js.VUndefined)
  /\ (forall key err,
         outcome (getStorageKey_ crypto this storageKey e) = Fulfilled key ->
         storage_ this = Failed err ->
         outcome (setStorageData_ crypto this storageKey e value)
         = Rejected err).
Proof.
  split.
  - intros s key err Hs Hkey Hset. apply getStorageKey_derivable in Hkey.
    destruct Hkey as [Hderive ->].
    rewrite (setStorageData_ok _ _ _ _ Hderive), Hs. cbn [outcome snd].
    now rewrite Hset.
  - intros key err Hkey Hs. apply getStorageKey_derivable in Hkey.
    destruct Hkey as [Hderive _].
    now rewrite (setStorageData_ok _ _ _ _ Hderive), Hs.
Qed.

(** *** Counting calls *)

Lemma invoked_app p a b : invoked p (a ++ b) = invoked p a + invoked p b.
Proof.
  unfold invoked, calls.
  now rewrite flat_map_app, filter_app, length_app.
Qed.

Lemma filter_none_weaken (p q : Event -> bool) (l : list Event) :
  (forall ev, q ev = true -> p ev = true) ->
  List.length (filter p l) = 0 -> List.length (filter q l) = 0.
Proof.
  intros Hqp. induction l as [|ev l IH]; simpl; [reflexivity|].
  destruct (p ev) eqn:Hp; simpl; [discriminate|].
  destruct (q ev) eqn:Hq; [|exact IH].
  apply Hqp in Hq. congruence.
Qed.

Lemma invoked_none_weaken (p q : Event -> bool) (t : list Event) :
  (forall ev, q ev = true -> p ev = true) ->
  invoked p t = 0 -> invoked q t = 0.
Proof. unfold invoked. apply filter_none_weaken. Qed.

Lemma writes_true_under_writes_under key ev :
  writes_true_under key ev = true -> writes_under key ev = true.
Proof.
  destruct ev as [| | k [| |[|]| | |] | | | | | |]; simpl; congruence.
Qed.

Lemma navigates_to_the_url url : navigates_to url (NavigateTo url) = true.
Proof. destruct url as [u|]; simpl; [apply String.eqb_refl | reflexivity]. Qed.

(** The cache read calls the digest and, with a store, its [get]:
    nothing else. *)
Lemma getStorageData_calls this storageKey e (p : Event -> bool) :
  p (Digest "SHA-256" []) = false ->
  p (StorageGet (derived_key storageKey)) = false ->
  invoked p (trace (getStorageData_ crypto this storageKey e)) = 0.
Proof.
  intros Hd Hg. rewrite getStorageData_eq. unfold invoked.
  destruct (derivation_failure crypto e); [reflexivity|].
  destruct (storage_ this); simpl; rewrite ?Hd, ?Hg; reflexivity.
Qed.

(** *** The existence check, case by case *)

Ltac async_cbn :=
  cbn [then_ catch_ try_ detach seq navigateTo_ callback resolve settled invoke
       of_state UrlBuilder.buildUrl Xhr.fetchJson Response.json Storage.get
       Storage.set Storage.void
       SubscriptionPlatform.consentDeferredAccountCreation
       xhr_ storage_ hasAssociatedAccountUrl_ accountCreationRedirectUrl_
       urlBuilder_ platform_
       outcome trace fst snd app].

Ltac async_case :=
  match goal with
  | |- context [of_state ?x] => destruct x eqn:?
  | |- context [match ?x with
                | Resolved _ => _ | Failed _ => _ | Unsettled => _
                end] => destruct x eqn:?
  | |- context [try_ (Js.Get ?v ?n)] => destruct (Js.Get v n) eqn:?
  | |- context [if Js.is_defined ?v then _ else _] =>
      destruct (Js.is_defined v) eqn:?
  end.

Ltac async_run Hget Hset :=
  repeat (rewrite ?Hget, ?Hset; async_cbn; try async_case).

(** When no key can be derived the check throws at once, and so does
    the flow. *)
Lemma hasAssociatedUserAccount_failed this e err :
  derivation_failure crypto e = Some err ->
  hasAssociatedUserAccount_ crypto this e = ([], Threw err).
Proof.
  intros H. unfold hasAssociatedUserAccount_.
  now rewrite getStorageData_eq, H.
Qed.

Lemma run_failed this e err :
  derivation_failure crypto e = Some err ->
  run crypto this e = ([], Threw err).
Proof.
  intros H. unfold run. now rewrite getStorageData_eq, H.
Qed.

Lemma hasAssociatedUserAccount_calls this e :
  invoked is_consent (trace (hasAssociatedUserAccount_ crypto this e)) = 0
  /\ invoked is_navigation (trace (hasAssociatedUserAccount_ crypto this e))
     = 0
  /\ invoked (writes_under (derived_key HAS_REJECTED_ACCOUNT_CREATION))
       (trace (hasAssociatedUserAccount_ crypto this e)) = 0
  /\ forall err,
       outcome (hasAssociatedUserAccount_ crypto this e) = Rejected err ->
       invoked is_storage_write
         (trace (hasAssociatedUserAccount_ crypto this e))
       = 0.
Proof.
  destruct (derivation_failure crypto e) as [failure|] eqn:Hderive.
  { rewrite (hasAssociatedUserAccount_failed this e Hderive).
    repeat split. }
  pose proof (fun f p => getStorageData_ok f p e Hderive) as Hget.
  pose proof (fun f p v => setStorageData_ok f p e v Hderive) as Hset.
  unfold hasAssociatedUserAccount_.
  destruct this as [xhr st hasUrl createUrl ub pl].
  async_run Hget Hset.
  all: split; [reflexivity | split; [reflexivity | split; [reflexivity|]]].
  all: intros err H; try discriminate H; reflexivity.
Qed.

(** A failure of the URL builder, of the request or of the parsing of
    the response, after a cache miss, is the failure of the check. *)
Lemma hasAssociatedUserAccount_failure this e err :
  outcome (getStorageData_ crypto this HAS_PUBLISHER_ACCOUNT e)
  = Fulfilled Js.VUndefined ->
  outcome
    (then_
       (then_
          (UrlBuilder.buildUrl (urlBuilder_ this)
             (hasAssociatedAccountUrl_ this) true)
          (fun url =>
             Xhr.fetchJson (xhr_ this) url
               {| method := "POST";
                  credentials := "include";
                  body :=
                    Js.VObj
                      [("entitlements", Js.VStr (stringifyForPingback e))] |}))
       (fun result => Response.json result))
  = Rejected err ->
  outcome (hasAssociatedUserAccount_ crypto this e) = Rejected err.
Proof.
  unfold hasAssociatedUserAccount_.
  destruct (getStorageData_ crypto this HAS_PUBLISHER_ACCOUNT e) as [t o].
  cbn [outcome snd]. intros ->. cbn [then_ Js.is_defined callback].
  match goal with
  | |- context [then_ (then_ ?a ?f) ?g] => destruct (then_ (then_ a f) g) as [t' o']
  end.
  cbn [outcome snd]. intros ->. reflexivity.
Qed.

(** *** The flow *)

(** What [run] comes to once the rejection flag is read as falsy and the
    existence check has settled. *)
Lemma run_after_check this e rejected :
  outcome (getStorageData_ crypto this HAS_REJECTED_ACCOUNT_CREATION e)
  = Fulfilled rejected ->
  Js.ToBoolean rejected = false ->
  run crypto this e
  = let '(t1, _) :=
      getStorageData_ crypto this HAS_REJECTED_ACCOUNT_CREATION e in
    let '(t2, o2) := hasAssociatedUserAccount_ crypto this e in
    match o2 with
    | Fulfilled jsonResult =>
        match Js.Get jsonResult "found" with
        | inl err => (t1 ++ t2 ++ [], Rejected err)
        | inr found =>
            if Js.ToBoolean found then (t1 ++ t2 ++ [], Fulfilled Js.VUndefined)
            else
              (t1 ++ t2 ++
                 [Detached
                    (Consent ::
                       match SubscriptionPlatform.consentDeferredAccountCreation_
                               (platform_ this) with
                       | Resolved accepted =>
                           if Js.ToBoolean accepted then
                             [NavigateTo (accountCreationRedirectUrl_ this)]
                           else
                             trace
                               (setStorageData_ crypto this
                                  HAS_REJECTED_ACCOUNT_CREATION e
                                  (Js.VBool true))
                       | _ => []
                       end)],
               Fulfilled Js.VUndefined)
        end
    | Rejected err => (t1 ++ t2, Rejected err)
    | Pending => (t1 ++ t2, Pending)
    | Threw err => (t1 ++ t2, Rejected err)
    end.
Proof.
  intros Hread. pose proof (read_derivable _ _ _ Hread) as Hderive.
  revert Hread. unfold run.
  destruct (getStorageData_ crypto this HAS_REJECTED_ACCOUNT_CREATION e)
    as [t1 o1].
  cbn [outcome snd]. intros -> Hfalsy. cbn [then_]. rewrite Hfalsy.
  destruct (hasAssociatedUserAccount_ crypto this e)
    as [t2 [jsonResult|err| |err]];
    cbn [then_ callback]; try reflexivity.
  destruct (Js.Get jsonResult "found") as [err|found]; cbn [try_ callback];
    [reflexivity|].
  destruct (Js.ToBoolean found); cbn [resolve callback]; [reflexivity|].
  rewrite (setStorageData_ok _ _ _ _ Hderive). async_cbn.
  destruct (SubscriptionPlatform.consentDeferredAccountCreation_ (platform_ this))
    as [accepted| |]; async_cbn; try reflexivity.
  destruct (Js.ToBoolean accepted); async_cbn; [reflexivity|].
  destruct (storage_ this) as [s| |]; async_cbn; try reflexivity.
  destruct (Storage.set_ s _ _); reflexivity.
Qed.

(** *** The steps, one by one *)

Lemma existence_request_eq this e :
  existence_request this e
  = match UrlBuilder.buildUrl_ (urlBuilder_ this)
            (hasAssociatedAccountUrl_ this) true with
    | Resolved url =>
        match Xhr.fetchJson_ (xhr_ this) url
                {| method := "POST";
                   credentials := "include";
                   body :=
                     Js.VObj
                       [("entitlements", Js.VStr (stringifyForPingback e))]
                |} with
        | Resolved r =>
            ([BuildUrl (hasAssociatedAccountUrl_ this) true;
              FetchJson url
                {| method := "POST";
                   credentials := "include";
                   body :=
                     Js.VObj
                       [("entitlements", Js.VStr (stringifyForPingback e))]
                |};
              ResponseJson],
             of_state (Response.json_ r))
        | Failed err =>
            ([BuildUrl (hasAssociatedAccountUrl_ this) true;
              FetchJson url
                {| method := "POST";
                   credentials := "include";
                   body :=
                     Js.VObj
                       [("entitlements", Js.VStr (stringifyForPingback e))]
                |}],
             Rejected err)
        | Unsettled =>
            ([BuildUrl (hasAssociatedAccountUrl_ this) true;
              FetchJson url
                {| method := "POST";
                   credentials := "include";
                   body :=
                     Js.VObj
                       [("entitlements", Js.VStr (stringifyForPingback e))]
                |}],
             Pending)
        end
    | Failed err =>
        ([BuildUrl (hasAssociatedAccountUrl_ this) true], Rejected err)
    | Unsettled => ([BuildUrl (hasAssociatedAccountUrl_ this) true], Pending)
    end.
Proof.
  unfold existence_request, UrlBuilder.buildUrl, Xhr.fetchJson,
    Response.json, invoke.
  destruct (UrlBuilder.buildUrl_ _ _ _) as [url| |]; async_cbn;
    try reflexivity.
  destruct (Xhr.fetchJson_ _ _ _) as [r| |]; async_cbn; try reflexivity.
  destruct (Response.json_ r); reflexivity.
Qed.

Lemma existence_request_calls this e (p : Event -> bool) :
  (forall url auth, p (BuildUrl url auth) = false) ->
  (forall url init, p (FetchJson url init) = false) ->
  p ResponseJson = false ->
  invoked p (trace (existence_request this e)) = 0.
Proof.
  intros Hb Hf Hj. rewrite existence_request_eq. unfold invoked.
  destruct (UrlBuilder.buildUrl_ _ _ _) as [url| |];
    [destruct (Xhr.fetchJson_ _ _ _) as [r| |]| |];
    cbn; rewrite ?Hb, ?Hf, ?Hj; reflexivity.
Qed.

Lemma setStorageData_calls this storageKey e value (p : Event -> bool) :
  p (Digest "SHA-256" []) = false ->
  p (StorageSet (derived_key storageKey) value) = false ->
  invoked p (trace (setStorageData_ crypto this storageKey e value)) = 0.
Proof.
  intros Hd Hs. rewrite setStorageData_eq. unfold invoked.
  destruct (derivation_failure crypto e); [reflexivity|].
  destruct (storage_ this); cbn; rewrite ?Hd, ?Hs; reflexivity.
Qed.

(** The existence check in terms of its parts: the cache read, the
    request, the write started with the answer. *)
Lemma hasAssociatedUserAccount_eq this e :
  hasAssociatedUserAccount_ crypto this e
  = let '(t1, o1) := getStorageData_ crypto this HAS_PUBLISHER_ACCOUNT e in
    match o1 with
    | Fulfilled cached =>
        if Js.is_defined cached then
          (t1, Fulfilled (Js.VObj [("found", cached)]))
        else
          let '(t2, o2) := existence_request this e in
          match o2 with
          | Fulfilled jsonResult =>
              match Js.Get jsonResult "found" with
              | inl err => (t1 ++ t2, Rejected err)
              | inr found =>
                  (t1 ++ t2 ++
                     [Detached
                        (trace
                           (setStorageData_ crypto this HAS_PUBLISHER_ACCOUNT
                              e found))],
                   Fulfilled jsonResult)
              end
          | Rejected err => (t1 ++ t2, Rejected err)
          | Pending => (t1 ++ t2, Pending)
          | Threw err => (t1 ++ t2, Rejected err)
          end
    | Rejected err => (t1, Rejected err)
    | Pending => (t1, Pending)
    | Threw err => (t1, Threw err)
    end.
Proof.
  destruct (derivation_failure crypto e) as [failure|] eqn:Hderive.
  { rewrite (hasAssociatedUserAccount_failed this e Hderive).
    now rewrite getStorageData_eq, Hderive. }
  unfold hasAssociatedUserAccount_.
  change (then_ (then_ (UrlBuilder.buildUrl _ _ _) _) _)
    with (existence_request this e).
  destruct (getStorageData_ crypto this HAS_PUBLISHER_ACCOUNT e)
    as [t1 [cached|err| |err]]; cbn [then_]; try reflexivity.
  destruct (Js.is_defined cached); cbn [resolve callback].
  { now rewrite app_nil_r. }
  destruct (existence_request this e) as [t2 [jsonResult|err| |err]];
    cbn [then_ callback]; try reflexivity.
  destruct (Js.Get jsonResult "found") as [err|found]; cbn [try_ callback].
  { now rewrite app_nil_r. }
  rewrite (setStorageData_ok _ _ _ _ Hderive).
  destruct (storage_ this) as [s| |]; [destruct (Storage.set_ s _ _)| |];
    reflexivity.
Qed.

Lemma run_when_declined_before this e rejected :
  outcome (getStorageData_ crypto this HAS_REJECTED_ACCOUNT_CREATION e)
  = Fulfilled rejected ->
  Js.ToBoolean rejected = true ->
  run crypto this e
  = (trace (getStorageData_ crypto this HAS_REJECTED_ACCOUNT_CREATION e),
     Fulfilled Js.VUndefined).
Proof.
  unfold run.
  destruct (getStorageData_ crypto this HAS_REJECTED_ACCOUNT_CREATION e)
    as [t1 o1].
  cbn [outcome trace fst snd]. intros -> Htruthy. cbn [then_].
  rewrite Htruthy. cbn [resolve callback]. now rewrite app_nil_r.
Qed.

Lemma run_when_read_pending this e :
  outcome (getStorageData_ crypto this HAS_REJECTED_ACCOUNT_CREATION e)
  = Pending ->
  run crypto this e
  = (trace (getStorageData_ crypto this HAS_REJECTED_ACCOUNT_CREATION e),
     Pending).
Proof.
  unfold run.
  destruct (getStorageData_ crypto this HAS_REJECTED_ACCOUNT_CREATION e)
    as [t1 o1].
  cbn [outcome trace fst snd]. intros ->. reflexivity.
Qed.

(** A read is fulfilled or pending, or it has thrown for want of a
    key. *)
Lemma getStorageData_settles this storageKey e :
  (exists v, outcome (getStorageData_ crypto this storageKey e) = Fulfilled v)
  \/ outcome (getStorageData_ crypto this storageKey e) = Pending
  \/ exists err,
       derivation_failure crypto e = Some err
       /\ getStorageData_ crypto this storageKey e = ([], Threw err).
Proof.
  rewrite getStorageData_eq.
  destruct (derivation_failure crypto e) as [failure|]; [eauto|].
  destruct (storage_ this) as [s| |]; [destruct (Storage.get_ s _)| |];
    cbn; eauto.
Qed.

Lemma consent_chain_eq this e :
  consent_chain crypto this e
  = match SubscriptionPlatform.consentDeferredAccountCreation_
            (platform_ this) with
    | Resolved accepted =>
        if Js.ToBoolean accepted then
          ([Consent; NavigateTo (accountCreationRedirectUrl_ this)],
           Fulfilled Js.VUndefined)
        else
          (Consent ::
             trace (setStorageData_ crypto this HAS_REJECTED_ACCOUNT_CREATION
                      e (Js.VBool true)),
           outcome
             (callback
                (setStorageData_ crypto this HAS_REJECTED_ACCOUNT_CREATION e
                   (Js.VBool true))))
    | Failed err => ([Consent], Rejected err)
    | Unsettled => ([Consent], Pending)
    end.
Proof.
  unfold consent_chain,
    SubscriptionPlatform.consentDeferredAccountCreation, invoke.
  destruct (SubscriptionPlatform.consentDeferredAccountCreation_ _)
    as [accepted| |]; async_cbn; try reflexivity.
  destruct (Js.ToBoolean accepted); async_cbn; [reflexivity|].
  destruct (setStorageData_ crypto this HAS_REJECTED_ACCOUNT_CREATION e
              (Js.VBool true)) as [t [v|err| |err]]; reflexivity.
Qed.

(** The whole flow in terms of its parts. *)
Lemma run_eq this e :
  run crypto this e
  = let '(t1, o1) :=
      getStorageData_ crypto this HAS_REJECTED_ACCOUNT_CREATION e in
    match o1 with
    | Fulfilled rejected =>
        if Js.ToBoolean rejected then (t1, Fulfilled Js.VUndefined)
        else
          let '(t2, o2) := hasAssociatedUserAccount_ crypto this e in
          match o2 with
          | Fulfilled jsonResult =>
              match Js.Get jsonResult "found" with
              | inl err => (t1 ++ t2, Rejected err)
              | inr found =>
                  if Js.ToBoolean found then
                    (t1 ++ t2, Fulfilled Js.VUndefined)
                  else
                    (t1 ++ t2
                       ++ [Detached (trace (consent_chain crypto this e))],
                     Fulfilled Js.VUndefined)
              end
          | Rejected err => (t1 ++ t2, Rejected err)
          | Pending => (t1 ++ t2, Pending)
          | Threw err => (t1 ++ t2, Rejected err)
          end
    | Rejected err => (t1, Rejected err)
    | Pending => (t1, Pending)
    | Threw err => (t1, Threw err)
    end.
Proof.
  unfold run.
  change (then_ (SubscriptionPlatform.consentDeferredAccountCreation _) _)
    with (consent_chain crypto this e).
  destruct (getStorageData_ crypto this HAS_REJECTED_ACCOUNT_CREATION e)
    as [t1 [rejected|err| |err]]; cbn [then_]; try reflexivity.
  destruct (Js.ToBoolean rejected); cbn [resolve callback].
  { now rewrite app_nil_r. }
  destruct (hasAssociatedUserAccount_ crypto this e)
    as [t2 [jsonResult|err| |err]]; cbn [then_ callback]; try reflexivity.
  destruct (Js.Get jsonResult "found") as [err|found]; cbn [try_ callback].
  { now rewrite app_nil_r. }
  destruct (Js.ToBoolean found); cbn [resolve callback].
  { now rewrite app_nil_r. }
  assert (forall err, outcome (consent_chain crypto this e) <> Threw err)
    as Hnt.
  { intros err. rewrite consent_chain_eq.
    destruct (SubscriptionPlatform.consentDeferredAccountCreation_ _)
      as [accepted| |]; try discriminate.
    destruct (Js.ToBoolean accepted); [discriminate|].
    destruct (setStorageData_ crypto this HAS_REJECTED_ACCOUNT_CREATION e
                (Js.VBool true)) as [t [v|err0| |err0]]; discriminate. }
  revert Hnt.
  destruct (consent_chain crypto this e) as [t3 [v|err| |err]];
    cbn [outcome snd detach resolve callback trace fst]; intros Hnt;
    try reflexivity.
  now destruct (Hnt err).
Qed.

Lemma invoked_detached p chain rest :
  invoked p (Detached chain :: rest) = invoked p chain + invoked p rest.
Proof.
  unfold invoked, calls. cbn [flat_map calls_of].
  now rewrite filter_app, length_app.
Qed.

Lemma invoked_nil p : invoked p [] = 0.
Proof. reflexivity. Qed.

(** What the existence check can come to. *)
Lemma hasAssociatedUserAccount_outcome this e :
  match outcome (hasAssociatedUserAccount_ crypto this e) with
  | Fulfilled jsonResult => exists found, Js.Get jsonResult "found" = inr found
  | Rejected err =>
      outcome (existence_request this e) = Rejected err
      \/ exists jsonResult,
           outcome (existence_request this e) = Fulfilled jsonResult
           /\ Js.Get jsonResult "found" = inl err
  | Pending => True
  | Threw err => derivation_failure crypto e = Some err
  end.
Proof.
  rewrite hasAssociatedUserAccount_eq.
  destruct (getStorageData_settles this HAS_PUBLISHER_ACCOUNT e)
    as [[v Hv]|[Hv|[err [Hderive ->]]]]; [| |exact Hderive]; revert Hv;
    destruct (getStorageData_ crypto this HAS_PUBLISHER_ACCOUNT e) as [t1 o1];
    cbn [outcome snd]; intros ->; [|exact I].
  destruct (Js.is_defined v); cbn [outcome snd]; [eexists; reflexivity|].
  assert (forall err, outcome (existence_request this e) <> Threw err) as Hnt.
  { intros err. rewrite existence_request_eq.
    destruct (UrlBuilder.buildUrl_ _ _ _) as [url| |]; try discriminate.
    destruct (Xhr.fetchJson_ _ _ _) as [r| |]; try discriminate.
    destruct (Response.json_ r); discriminate. }
  revert Hnt.
  destruct (existence_request this e) as [t2 [jsonResult|err| |err]];
    cbn [outcome snd]; intros Hnt; try exact I.
  - destruct (Js.Get jsonResult "found") as [err|found] eqn:Hget;
      cbn [outcome snd]; eauto.
  - now left.
  - exfalso. now apply (Hnt err).
Qed.





(** C2: with no rejection cached, a failure of the existence check is
    the failure of [run]; the consent prompt is not invoked and nothing is
    written to the store. *)
Theorem run_fails_closed this e rejected err :
  outcome (getStorageData_ crypto this HAS_REJECTED_ACCOUNT_CREATION e)
  = Fulfilled rejected ->
  Js.ToBoolean rejected = false ->
  outcome (hasAssociatedUserAccount_ crypto this e) = Rejected err ->
  outcome (run crypto this e) = Rejected err
  /\ invoked is_consent (trace (run crypto this e)) = 0
  /\ invoked is_storage_write (trace (run crypto this e)) = 0.
Proof.
  intros Hread Hfalsy Hcheck.
  rewrite (run_after_check this e Hread Hfalsy). clear Hread.
  destruct (hasAssociatedUserAccount_calls this e) as (Hc & _ & _ & Hw).
  specialize (Hw err Hcheck).
  pose proof (getStorageData_calls this HAS_REJECTED_ACCOUNT_CREATION e
                is_consent eq_refl eq_refl) as Hc1.
  pose proof (getStorageData_calls this HAS_REJECTED_ACCOUNT_CREATION e
                is_storage_write eq_refl eq_refl) as Hw1.
  revert Hcheck Hc Hw Hc1 Hw1.
  destruct (getStorageData_ crypto this HAS_REJECTED_ACCOUNT_CREATION e)
    as [t1 o1].
  destruct (hasAssociatedUserAccount_ crypto this e) as [t2 o2].
  cbn [outcome trace fst snd]. intros -> Hc Hw Hc1 Hw1.
  cbn [outcome trace fst snd].
  rewrite !invoked_app, Hc, Hw, Hc1, Hw1. repeat split.
Qed.

(** C3: when the cache read for the account flag returns [true], the
    existence check resolves to [{found: true}] and no URL is built, no
    request is issued, no response is parsed. *)
Theorem cache_short_circuit this e :
  outcome (getStorageData_ crypto this HAS_PUBLISHER_ACCOUNT e)
  = Fulfilled (Js.VBool true) ->
  outcome (hasAssociatedUserAccount_ crypto this e)
  = Fulfilled (Js.VObj [("found", Js.VBool true)])
  /\ invoked is_network (trace (hasAssociatedUserAccount_ crypto this e)) = 0.
Proof.
  intros Hread. pose proof (read_derivable _ _ _ Hread) as Hderive.
  revert Hread. unfold hasAssociatedUserAccount_.
  rewrite (getStorageData_ok _ _ _ Hderive).
  destruct (storage_ this) as [s| |]; cbn [outcome snd]; try discriminate.
  destruct (Storage.get_ s _); try discriminate.
  intros [= ->]. split; reflexivity.
Qed.

(** C4: when the store holds [true] under the key of the rejection flag
    for the entitlement, [run] resolves after the key derivation and that
    one read: no existence check, no consent prompt, no navigation, no
    write. *)
Theorem run_remembers_rejection this e s key :
  storage_ this = Resolved s ->
  outcome (getStorageKey_ crypto this HAS_REJECTED_ACCOUNT_CREATION e)
  = Fulfilled key ->
  Storage.get_ s key = Resolved (Js.VBool true) ->
  run crypto this e
  = ([Digest "SHA-256" []; StorageGet key], Fulfilled Js.VUndefined)
  /\ invoked is_network (trace (run crypto this e)) = 0
  /\ invoked is_consent (trace (run crypto this e)) = 0
  /\ invoked is_navigation (trace (run crypto this e)) = 0
  /\ invoked is_storage_write (trace (run crypto this e)) = 0.
Proof.
  intros Hs Hkey Hget. apply getStorageKey_derivable in Hkey.
  destruct Hkey as [Hderive ->].
  assert (run crypto this e
          = ([Digest "SHA-256" [];
              StorageGet (derived_key HAS_REJECTED_ACCOUNT_CREATION)],
             Fulfilled Js.VUndefined)) as ->.
  { unfold run. rewrite (getStorageData_ok _ _ _ Hderive), Hs, Hget.
    reflexivity. }
  repeat split.
Qed.

(** C9: with no rejection cached and no account found, a declined
    consent starts the write of [true] under the key of the rejection
    flag (the [set] call is made once when there is a store) and nothing
    navigates; an accepted consent navigates once, to the account-creation
    URL, and writes nothing under that key. *)
Theorem consent_decides this e rejected jsonResult key :
  outcome (getStorageData_ crypto this HAS_REJECTED_ACCOUNT_CREATION e)
  = Fulfilled rejected ->
  Js.ToBoolean rejected = false ->
  outcome (hasAssociatedUserAccount_ crypto this e) = Fulfilled jsonResult ->
  Js.Get jsonResult "found" = inr (Js.VBool false) ->
  outcome (getStorageKey_ crypto this HAS_REJECTED_ACCOUNT_CREATION e)
  = Fulfilled key ->
  (SubscriptionPlatform.consentDeferredAccountCreation_ (platform_ this)
   = Resolved (Js.VBool false) ->
   invoked is_navigation (trace (run crypto this e)) = 0
   /\ In (Detached
            (Consent ::
               trace (setStorageData_ crypto this
                        HAS_REJECTED_ACCOUNT_CREATION e (Js.VBool true))))
         (trace (run crypto this e))
   /\ forall s,
        storage_ this = Resolved s ->
        invoked (writes_true_under key) (trace (run crypto this e)) = 1)
  /\ (SubscriptionPlatform.consentDeferredAccountCreation_ (platform_ this)
      = Resolved (Js.VBool true) ->
      invoked is_navigation (trace (run crypto this e)) = 1
      /\ invoked (navigates_to (accountCreationRedirectUrl_ this))
           (trace (run crypto this e)) = 1
      /\ invoked (writes_under key) (trace (run crypto this e)) = 0).
Proof.
  intros Hread Hfalsy Hcheck Hfound Hkey.
  apply getStorageKey_derivable in Hkey. destruct Hkey as [Hderive ->].
  rewrite (run_after_check this e Hread Hfalsy). clear Hread.
  destruct (hasAssociatedUserAccount_calls this e) as (_ & Hn & Hw & _).
  pose proof (invoked_none_weaken _
                (writes_true_under (derived_key HAS_REJECTED_ACCOUNT_CREATION))
                _ (writes_true_under_writes_under _) Hw) as Hwt.
  pose proof (getStorageData_calls this HAS_REJECTED_ACCOUNT_CREATION e
                is_navigation eq_refl eq_refl) as Hn1.
  pose proof (getStorageData_calls this HAS_REJECTED_ACCOUNT_CREATION e
                (writes_under (derived_key HAS_REJECTED_ACCOUNT_CREATION))
                eq_refl eq_refl) as Hw1.
  pose proof (getStorageData_calls this HAS_REJECTED_ACCOUNT_CREATION e
                (writes_true_under (derived_key HAS_REJECTED_ACCOUNT_CREATION))
                eq_refl eq_refl) as Hwt1.
  revert Hcheck Hn Hw Hwt Hn1 Hw1 Hwt1.
  destruct (getStorageData_ crypto this HAS_REJECTED_ACCOUNT_CREATION e)
    as [t1 o1].
  destruct (hasAssociatedUserAccount_ crypto this e) as [t2 o2].
  cbn [outcome trace fst snd]. intros -> Hn Hw Hwt Hn1 Hw1 Hwt1.
  rewrite Hfound. cbn [Js.ToBoolean].
  split; intros ->; cbn [Js.ToBoolean trace fst].
  - split; [|split].
    + rewrite !invoked_app, Hn, Hn1, (setStorageData_ok _ _ _ _ Hderive).
      destruct (storage_ this); reflexivity.
    + apply in_or_app; right. apply in_or_app; right. now left.
    + intros s Hs.
      rewrite !invoked_app, Hwt, Hwt1, (setStorageData_ok _ _ _ _ Hderive), Hs.
      reflexivity.
  - rewrite !invoked_app, Hn, Hn1, Hw, Hw1.
    split; [reflexivity | split; [|reflexivity]].
    apply (invoked_none_weaken is_navigation
             (navigates_to (accountCreationRedirectUrl_ this))) in Hn, Hn1;
      try (intros [] H; (discriminate H || reflexivity)).
    rewrite Hn, Hn1. unfold invoked, calls.
    cbn [flat_map calls_of app filter].
    rewrite navigates_to_the_url. reflexivity.
Qed.

(** C10, on the code: once the flow reaches consent, the promise of
    [run] is fulfilled whatever becomes of the prompt. With the prompt
    still unanswered the promise is fulfilled all the same, and neither
    the navigation nor the write under the key of the rejection flag has
    taken place. *)
Theorem run_does_not_wait_for_consent this e rejected jsonResult found :
  outcome (getStorageData_ crypto this HAS_REJECTED_ACCOUNT_CREATION e)
  = Fulfilled rejected ->
  Js.ToBoolean rejected = false ->
  outcome (hasAssociatedUserAccount_ crypto this e) = Fulfilled jsonResult ->
  Js.Get jsonResult "found" = inr found ->
  Js.ToBoolean found = false ->
  outcome (run crypto this e) = Fulfilled Js.VUndefined
  /\ invoked is_consent (trace (run crypto this e)) = 1
  /\ (SubscriptionPlatform.consentDeferredAccountCreation_ (platform_ this)
      = Unsettled ->
      invoked is_navigation (trace (run crypto this e)) = 0
      /\ invoked
           (writes_under (derived_key HAS_REJECTED_ACCOUNT_CREATION))
           (trace (run crypto this e)) = 0).
Proof.
  intros Hread Hfalsy Hcheck Hfound Hnone.
  pose proof (read_derivable _ _ _ Hread) as Hderive.
  rewrite (run_after_check this e Hread Hfalsy). clear Hread.
  destruct (hasAssociatedUserAccount_calls this e) as (Hc & Hn & Hw & _).
  pose proof (getStorageData_calls this HAS_REJECTED_ACCOUNT_CREATION e
                is_consent eq_refl eq_refl) as Hc1.
  pose proof (getStorageData_calls this HAS_REJECTED_ACCOUNT_CREATION e
                is_navigation eq_refl eq_refl) as Hn1.
  pose proof (getStorageData_calls this HAS_REJECTED_ACCOUNT_CREATION e
                (writes_under (derived_key HAS_REJECTED_ACCOUNT_CREATION))
                eq_refl eq_refl) as Hw1.
  revert Hcheck Hc Hn Hw Hc1 Hn1 Hw1.
  destruct (getStorageData_ crypto this HAS_REJECTED_ACCOUNT_CREATION e)
    as [t1 o1].
  destruct (hasAssociatedUserAccount_ crypto this e) as [t2 o2].
  cbn [outcome trace fst snd]. intros -> Hc Hn Hw Hc1 Hn1 Hw1.
  rewrite Hfound, Hnone. cbn [outcome trace fst snd].
  split; [reflexivity|]. split.
  - rewrite !invoked_app, Hc, Hc1, (setStorageData_ok _ _ _ _ Hderive).
    destruct (SubscriptionPlatform.consentDeferredAccountCreation_ _)
      as [accepted| |]; try reflexivity.
    destruct (Js.ToBoolean accepted); [reflexivity|].
    destruct (storage_ this); reflexivity.
  - intros ->. rewrite !invoked_app, Hn, Hn1, Hw, Hw1. split; reflexivity.
Qed.


(** *** More of what the code does *)

(** X1: whatever the store holds under the key of the account flag,
    other than [undefined], is taken as the answer: the check resolves to
    [{found: value}] after the cache read alone, also for a cached
    [false] or [null]. *)
Theorem cached_value_is_the_answer this e cached :
  outcome (getStorageData_ crypto this HAS_PUBLISHER_ACCOUNT e)
  = Fulfilled cached ->
  Js.is_defined cached = true ->
  outcome (hasAssociatedUserAccount_ crypto this e)
  = Fulfilled (Js.VObj [("found", cached)])
  /\ trace (hasAssociatedUserAccount_ crypto this e)
     = trace (getStorageData_ crypto this HAS_PUBLISHER_ACCOUNT e)
  /\ invoked is_network (trace (hasAssociatedUserAccount_ crypto this e)) = 0
  /\ invoked is_storage_write (trace (hasAssociatedUserAccount_ crypto this e))
     = 0.
Proof.
  intros Hread Hdefined. rewrite hasAssociatedUserAccount_eq.
  pose proof (getStorageData_calls this HAS_PUBLISHER_ACCOUNT e
                is_network eq_refl eq_refl) as Hn.
  pose proof (getStorageData_calls this HAS_PUBLISHER_ACCOUNT e
                is_storage_write eq_refl eq_refl) as Hw.
  revert Hread Hn Hw.
  destruct (getStorageData_ crypto this HAS_PUBLISHER_ACCOUNT e) as [t1 o1].
  cbn [outcome trace fst snd]. intros -> Hn Hw. rewrite Hdefined.
  cbn [outcome trace fst snd]. auto.
Qed.

(** X2: after a cache miss the check resolves to the parsed response
    itself, having built one URL, posted one request and parsed one
    response, and it starts the write of the response's [found] under the
    key of the account flag, without waiting for it. *)
Theorem cache_miss_asks_and_writes_back this e jsonResult found :
  outcome (getStorageData_ crypto this HAS_PUBLISHER_ACCOUNT e)
  = Fulfilled Js.VUndefined ->
  outcome (existence_request this e) = Fulfilled jsonResult ->
  Js.Get jsonResult "found" = inr found ->
  outcome (hasAssociatedUserAccount_ crypto this e) = Fulfilled jsonResult
  /\ trace (hasAssociatedUserAccount_ crypto this e)
     = trace (getStorageData_ crypto this HAS_PUBLISHER_ACCOUNT e)
         ++ trace (existence_request this e)
         ++ [Detached
               (trace
                  (setStorageData_ crypto this HAS_PUBLISHER_ACCOUNT e found))]
  /\ invoked is_network (trace (hasAssociatedUserAccount_ crypto this e)) = 3
  /\ forall s,
       storage_ this = Resolved s ->
       filter is_storage_write
         (calls (trace (hasAssociatedUserAccount_ crypto this e)))
       = [StorageSet (derived_key HAS_PUBLISHER_ACCOUNT) found].
Proof.
  intros Hread Hreq Hfound. rewrite hasAssociatedUserAccount_eq.
  pose proof (read_derivable _ _ _ Hread) as Hderive.
  pose proof (getStorageData_calls this HAS_PUBLISHER_ACCOUNT e
                is_network eq_refl eq_refl) as Hn.
  pose proof (getStorageData_calls this HAS_PUBLISHER_ACCOUNT e
                is_storage_write eq_refl eq_refl) as Hw.
  pose proof (existence_request_calls this e is_storage_write
                (fun _ _ => eq_refl) (fun _ _ => eq_refl) eq_refl) as Hw2.
  assert (invoked is_network (trace (existence_request this e)) = 3) as Hn2.
  { revert Hreq. rewrite existence_request_eq.
    destruct (UrlBuilder.buildUrl_ _ _ _) as [url| |]; try discriminate.
    destruct (Xhr.fetchJson_ _ _ _) as [r| |]; try discriminate.
    reflexivity. }
  revert Hread Hreq Hn Hw Hw2 Hn2.
  destruct (getStorageData_ crypto this HAS_PUBLISHER_ACCOUNT e) as [t1 o1].
  destruct (existence_request this e) as [t2 o2].
  cbn [outcome trace fst snd]. intros -> -> Hn Hw Hw2 Hn2.
  cbn [Js.is_defined]. rewrite Hfound. cbn [outcome trace fst snd].
  split; [reflexivity | split; [reflexivity | split]].
  - rewrite !invoked_app, Hn, Hn2, (setStorageData_ok _ _ _ _ Hderive).
    destruct (storage_ this); reflexivity.
  - intros s Hs. unfold invoked in Hw, Hw2. unfold calls in *.
    rewrite !flat_map_app, !filter_app.
    apply length_zero_iff_nil in Hw, Hw2. rewrite Hw, Hw2.
    rewrite (setStorageData_ok _ _ _ _ Hderive), Hs. reflexivity.
Qed.

(** X3: a response whose body parses to [null] (or [undefined]) makes the
    check reject with a [TypeError], and nothing is written to the
    store. *)
Theorem null_response_rejects this e jsonResult :
  outcome (getStorageData_ crypto this HAS_PUBLISHER_ACCOUNT e)
  = Fulfilled Js.VUndefined ->
  outcome (existence_request this e) = Fulfilled jsonResult ->
  jsonResult = Js.VNull \/ jsonResult = Js.VUndefined ->
  outcome (hasAssociatedUserAccount_ crypto this e) = Rejected Js.TypeError
  /\ invoked is_storage_write (trace (hasAssociatedUserAccount_ crypto this e))
     = 0.
Proof.
  intros Hread Hreq Hnull. rewrite hasAssociatedUserAccount_eq.
  pose proof (getStorageData_calls this HAS_PUBLISHER_ACCOUNT e
                is_storage_write eq_refl eq_refl) as Hw.
  pose proof (existence_request_calls this e is_storage_write
                (fun _ _ => eq_refl) (fun _ _ => eq_refl) eq_refl) as Hw2.
  revert Hread Hreq Hw Hw2.
  destruct (getStorageData_ crypto this HAS_PUBLISHER_ACCOUNT e) as [t1 o1].
  destruct (existence_request this e) as [t2 o2].
  cbn [outcome trace fst snd]. intros -> -> Hw Hw2.
  cbn [Js.is_defined].
  destruct Hnull as [-> | ->]; cbn [Js.Get outcome trace fst snd];
    rewrite invoked_app, Hw, Hw2; split; reflexivity.
Qed.

Lemma calls_app a b : calls (a ++ b) = calls a ++ calls b.
Proof. apply flat_map_app. Qed.

Lemma calls_detached chain : calls [Detached chain] = calls chain.
Proof. unfold calls. cbn [flat_map calls_of]. apply app_nil_r. Qed.

Lemma getStorageData_Forall this storageKey e (P : Event -> Prop) :
  P (Digest "SHA-256" []) ->
  P (StorageGet (derived_key storageKey)) ->
  Forall P (calls (trace (getStorageData_ crypto this storageKey e))).
Proof.
  intros Hd Hg. rewrite getStorageData_eq.
  destruct (derivation_failure crypto e); [constructor|].
  destruct (storage_ this); cbn; auto.
Qed.

Lemma setStorageData_Forall this storageKey e value (P : Event -> Prop) :
  P (Digest "SHA-256" []) ->
  P (StorageSet (derived_key storageKey) value) ->
  Forall P (calls (trace (setStorageData_ crypto this storageKey e value))).
Proof.
  intros Hd Hs. rewrite setStorageData_eq.
  destruct (derivation_failure crypto e); [constructor|].
  destruct (storage_ this); cbn; auto.
Qed.

Lemma existence_request_posts this e :
  Forall (is_existence_request this e) (calls (trace (existence_request this e)))
  /\ invoked is_fetch (trace (existence_request this e)) <= 1.
Proof.
  rewrite existence_request_eq.
  destruct (UrlBuilder.buildUrl_ _ _ _) as [url| |] eqn:Hurl;
    [destruct (Xhr.fetchJson_ _ _ _) as [r| |]| |];
    cbn; split; repeat constructor; auto; rewrite Hurl; auto.
Qed.

Lemma hasAssociatedUserAccount_posts this e :
  Forall (is_existence_request this e)
    (calls (trace (hasAssociatedUserAccount_ crypto this e)))
  /\ invoked is_fetch (trace (hasAssociatedUserAccount_ crypto this e)) <= 1.
Proof.
  rewrite hasAssociatedUserAccount_eq.
  pose proof (getStorageData_Forall this HAS_PUBLISHER_ACCOUNT e
                (is_existence_request this e) I I) as Hf1.
  pose proof (getStorageData_calls this HAS_PUBLISHER_ACCOUNT e
                is_fetch eq_refl eq_refl) as Hc1.
  destruct (existence_request_posts this e) as [Hf2 Hc2].
  assert (forall found,
             Forall (is_existence_request this e)
               (calls (trace (setStorageData_ crypto this HAS_PUBLISHER_ACCOUNT
                                e found)))
             /\ invoked is_fetch
                  (trace (setStorageData_ crypto this HAS_PUBLISHER_ACCOUNT
                            e found)) = 0) as Hset.
  { intros found. split.
    - now apply setStorageData_Forall.
    - now apply setStorageData_calls. }
  revert Hf1 Hc1 Hf2 Hc2.
  destruct (getStorageData_ crypto this HAS_PUBLISHER_ACCOUNT e) as [t1 o1].
  destruct (existence_request this e) as [t2 o2].
  cbn [outcome trace fst snd]. intros Hf1 Hc1 Hf2 Hc2.
  destruct o1 as [cached|err| |err]; cbn [trace fst];
    try (split; [assumption | lia]).
  destruct (Js.is_defined cached); cbn [trace fst];
    try (split; [assumption | lia]).
  destruct o2 as [jsonResult|err| |err]; cbn [trace fst];
    try (rewrite calls_app, invoked_app, Forall_app; split; [auto | lia]).
  destruct (Js.Get jsonResult "found") as [err|found]; cbn [trace fst].
  - rewrite calls_app, invoked_app, Forall_app; split; [auto | lia].
  - destruct (Hset found) as [Hf3 Hc3].
    rewrite !calls_app, !invoked_app, !Forall_app, calls_detached,
      invoked_detached, invoked_nil, Hc3.
    split; [auto | lia].
Qed.

Lemma consent_chain_calls this e (p : Event -> bool) :
  p (Digest "SHA-256" []) = false ->
  p (StorageSet (derived_key HAS_REJECTED_ACCOUNT_CREATION) (Js.VBool true))
  = false ->
  p Consent = false ->
  p (NavigateTo (accountCreationRedirectUrl_ this)) = false ->
  invoked p (trace (consent_chain crypto this e)) = 0.
Proof.
  intros Hd Hs Hc Hn. rewrite consent_chain_eq, setStorageData_eq.
  unfold invoked, calls.
  destruct (SubscriptionPlatform.consentDeferredAccountCreation_ _)
    as [accepted| |];
    [destruct (Js.ToBoolean accepted);
     [|destruct (derivation_failure crypto e); [|destruct (storage_ this)]]
    | |];
    cbn [trace fst flat_map calls_of app filter];
    rewrite ?Hd, ?Hs, ?Hc, ?Hn; reflexivity.
Qed.

Lemma consent_chain_Forall this e (P : Event -> Prop) :
  P (Digest "SHA-256" []) ->
  P (StorageSet (derived_key HAS_REJECTED_ACCOUNT_CREATION) (Js.VBool true)) ->
  P Consent ->
  P (NavigateTo (accountCreationRedirectUrl_ this)) ->
  Forall P (calls (trace (consent_chain crypto this e))).
Proof.
  intros Hd Hs Hc Hn. rewrite consent_chain_eq, setStorageData_eq.
  destruct (SubscriptionPlatform.consentDeferredAccountCreation_ _)
    as [accepted| |];
    [destruct (Js.ToBoolean accepted);
     [|destruct (derivation_failure crypto e); [|destruct (storage_ this)]]
    | |];
    unfold calls; cbn [trace fst flat_map calls_of app]; auto.
Qed.

(** X4: [run] makes at most one request, and a request it makes is a
    POST with credentials, to the URL that the URL builder resolved to
    for the existence-check URL with auth data, carrying the pingback
    text of the entitlement. *)
Theorem run_posts_the_entitlement_once this e :
  Forall (is_existence_request this e) (calls (trace (run crypto this e)))
  /\ invoked is_fetch (trace (run crypto this e)) <= 1.
Proof.
  rewrite run_eq.
  pose proof (getStorageData_Forall this HAS_REJECTED_ACCOUNT_CREATION e
                (is_existence_request this e) I I) as Hf1.
  pose proof (getStorageData_calls this HAS_REJECTED_ACCOUNT_CREATION e
                is_fetch eq_refl eq_refl) as Hc1.
  destruct (hasAssociatedUserAccount_posts this e) as [Hf2 Hc2].
  pose proof (consent_chain_Forall this e (is_existence_request this e)
                I I I I) as Hf3.
  pose proof (consent_chain_calls this e is_fetch
                eq_refl eq_refl eq_refl eq_refl) as Hc3.
  revert Hf1 Hc1 Hf2 Hc2.
  destruct (getStorageData_ crypto this HAS_REJECTED_ACCOUNT_CREATION e)
    as [t1 o1].
  destruct (hasAssociatedUserAccount_ crypto this e) as [t2 o2].
  cbn [outcome trace fst snd]. intros Hf1 Hc1 Hf2 Hc2.
  destruct o1 as [rejected|err| |err]; cbn [trace fst];
    try (split; [assumption | lia]).
  destruct (Js.ToBoolean rejected); cbn [trace fst];
    try (split; [assumption | lia]).
  destruct o2 as [jsonResult|err| |err]; cbn [trace fst];
    try (rewrite calls_app, invoked_app, Forall_app; split; [auto | lia]).
  destruct (Js.Get jsonResult "found") as [err|found]; cbn [trace fst];
    [|destruct (Js.ToBoolean found); cbn [trace fst]];
    try (rewrite calls_app, invoked_app, Forall_app; split; [auto | lia]).
  rewrite !calls_app, !invoked_app, !Forall_app, calls_detached,
    invoked_detached, invoked_nil, Hc3.
  split; [auto | lia].
Qed.

(** X5: with no rejection cached, an existence check that resolves with
    a truthy [found] ends the flow: [run] is fulfilled, no prompt, no
    navigation, nothing written under the key of the rejection flag. *)
Theorem account_found_ends_run this e rejected jsonResult found :
  outcome (getStorageData_ crypto this HAS_REJECTED_ACCOUNT_CREATION e)
  = Fulfilled rejected ->
  Js.ToBoolean rejected = false ->
  outcome (hasAssociatedUserAccount_ crypto this e) = Fulfilled jsonResult ->
  Js.Get jsonResult "found" = inr found ->
  Js.ToBoolean found = true ->
  run crypto this e
  = (trace (getStorageData_ crypto this HAS_REJECTED_ACCOUNT_CREATION e)
       ++ trace (hasAssociatedUserAccount_ crypto this e),
     Fulfilled Js.VUndefined)
  /\ invoked is_consent (trace (run crypto this e)) = 0
  /\ invoked is_navigation (trace (run crypto this e)) = 0
  /\ invoked (writes_under (derived_key HAS_REJECTED_ACCOUNT_CREATION))
       (trace (run crypto this e)) = 0.
Proof.
  intros Hread Hfalsy Hcheck Hget Hfound. rewrite run_eq.
  destruct (hasAssociatedUserAccount_calls this e) as (Hc & Hn & Hw & _).
  pose proof (getStorageData_calls this HAS_REJECTED_ACCOUNT_CREATION e
                is_consent eq_refl eq_refl) as Hc1.
  pose proof (getStorageData_calls this HAS_REJECTED_ACCOUNT_CREATION e
                is_navigation eq_refl eq_refl) as Hn1.
  pose proof (getStorageData_calls this HAS_REJECTED_ACCOUNT_CREATION e
                (writes_under (derived_key HAS_REJECTED_ACCOUNT_CREATION))
                eq_refl eq_refl) as Hw1.
  revert Hread Hcheck Hc Hn Hw Hc1 Hn1 Hw1.
  destruct (getStorageData_ crypto this HAS_REJECTED_ACCOUNT_CREATION e)
    as [t1 o1].
  destruct (hasAssociatedUserAccount_ crypto this e) as [t2 o2].
  cbn [outcome trace fst snd]. intros -> -> Hc Hn Hw Hc1 Hn1 Hw1.
  rewrite Hfalsy, Hget, Hfound. cbn [outcome trace fst snd].
  rewrite !invoked_app, Hc, Hn, Hw, Hc1, Hn1, Hw1. repeat split.
Qed.

(** X6: no step starts before the one before it has settled. While the
    read of the rejection flag is pending, [run] is pending and has made
    no request and no prompt; while the read of the account flag is
    pending, the check has made no request; while the check is pending,
    [run] is pending and has not prompted. *)
Theorem run_waits_for_each_step this e :
  (outcome (getStorageData_ crypto this HAS_REJECTED_ACCOUNT_CREATION e)
   = Pending ->
   outcome (run crypto this e) = Pending
   /\ invoked is_network (trace (run crypto this e)) = 0
   /\ invoked is_consent (trace (run crypto this e)) = 0)
  /\ (outcome (getStorageData_ crypto this HAS_PUBLISHER_ACCOUNT e) = Pending ->
      outcome (hasAssociatedUserAccount_ crypto this e) = Pending
      /\ invoked is_network (trace (hasAssociatedUserAccount_ crypto this e))
         = 0)
  /\ (forall rejected,
         outcome (getStorageData_ crypto this HAS_REJECTED_ACCOUNT_CREATION e)
         = Fulfilled rejected ->
         Js.ToBoolean rejected = false ->
         outcome (hasAssociatedUserAccount_ crypto this e) = Pending ->
         outcome (run crypto this e) = Pending
         /\ invoked is_consent (trace (run crypto this e)) = 0
         /\ invoked is_navigation (trace (run crypto this e)) = 0).
Proof.
  split; [|split].
  - intros Hread. rewrite (run_when_read_pending this e Hread).
    cbn [outcome trace fst snd].
    rewrite !getStorageData_calls; repeat split.
  - intros Hread. rewrite hasAssociatedUserAccount_eq.
    pose proof (getStorageData_calls this HAS_PUBLISHER_ACCOUNT e
                  is_network eq_refl eq_refl) as Hn.
    revert Hread Hn.
    destruct (getStorageData_ crypto this HAS_PUBLISHER_ACCOUNT e) as [t1 o1].
    cbn [outcome trace fst snd]. intros -> Hn. split; [reflexivity | exact Hn].
  - intros rejected Hread Hfalsy Hcheck. rewrite run_eq.
    destruct (hasAssociatedUserAccount_calls this e) as (Hc & Hn & _ & _).
    pose proof (getStorageData_calls this HAS_REJECTED_ACCOUNT_CREATION e
                  is_consent eq_refl eq_refl) as Hc1.
    pose proof (getStorageData_calls this HAS_REJECTED_ACCOUNT_CREATION e
                  is_navigation eq_refl eq_refl) as Hn1.
    revert Hread Hcheck Hc Hn Hc1 Hn1.
    destruct (getStorageData_ crypto this HAS_REJECTED_ACCOUNT_CREATION e)
      as [t1 o1].
    destruct (hasAssociatedUserAccount_ crypto this e) as [t2 o2].
    cbn [outcome trace fst snd]. intros -> -> Hc Hn Hc1 Hn1.
    rewrite Hfalsy. cbn [outcome trace fst snd].
    rewrite !invoked_app, Hc, Hn, Hc1, Hn1. repeat split.
Qed.

(** X7: [run] prompts at most once and navigates at most once. It
    prompts only when the rejection flag was read as falsy and the check
    resolved with a falsy [found]; it navigates only after the prompt was
    answered with a truthy value. *)
Theorem run_asks_and_navigates_only_when_due this e :
  invoked is_consent (trace (run crypto this e)) <= 1
  /\ invoked is_navigation (trace (run crypto this e))
     <= invoked is_consent (trace (run crypto this e))
  /\ (invoked is_consent (trace (run crypto this e)) = 1 ->
      exists rejected jsonResult found,
        outcome (getStorageData_ crypto this HAS_REJECTED_ACCOUNT_CREATION e)
        = Fulfilled rejected
        /\ Js.ToBoolean rejected = false
        /\ outcome (hasAssociatedUserAccount_ crypto this e)
           = Fulfilled jsonResult
        /\ Js.Get jsonResult "found" = inr found
        /\ Js.ToBoolean found = false)
  /\ (invoked is_navigation (trace (run crypto this e)) = 1 ->
      exists accepted,
        SubscriptionPlatform.consentDeferredAccountCreation_ (platform_ this)
        = Resolved accepted
        /\ Js.ToBoolean accepted = true).
Proof.
  rewrite run_eq.
  destruct (hasAssociatedUserAccount_calls this e) as (Hc & Hn & _ & _).
  pose proof (getStorageData_calls this HAS_REJECTED_ACCOUNT_CREATION e
                is_consent eq_refl eq_refl) as Hc1.
  pose proof (getStorageData_calls this HAS_REJECTED_ACCOUNT_CREATION e
                is_navigation eq_refl eq_refl) as Hn1.
  assert (invoked is_consent (trace (consent_chain crypto this e)) = 1
          /\ invoked is_navigation (trace (consent_chain crypto this e)) <= 1
          /\ (invoked is_navigation (trace (consent_chain crypto this e)) = 1 ->
              exists accepted,
                SubscriptionPlatform.consentDeferredAccountCreation_
                  (platform_ this) = Resolved accepted
                /\ Js.ToBoolean accepted = true)) as (Hc3 & Hn3 & Hacc).
  { rewrite consent_chain_eq, setStorageData_eq.
    destruct (SubscriptionPlatform.consentDeferredAccountCreation_ _)
      as [accepted| |];
      [destruct (Js.ToBoolean accepted) eqn:Hacc;
       [|destruct (derivation_failure crypto e); [|destruct (storage_ this)]]
      | |];
      cbn; repeat split; auto; try discriminate; eauto. }
  revert Hc Hn Hc1 Hn1.
  destruct (getStorageData_ crypto this HAS_REJECTED_ACCOUNT_CREATION e)
    as [t1 o1].
  destruct (hasAssociatedUserAccount_ crypto this e) as [t2 o2].
  cbn [outcome trace fst snd]. intros Hc Hn Hc1 Hn1.
  destruct o1 as [rejected|err| |err]; cbn [trace fst];
    try (rewrite Hc1, Hn1; repeat split; (lia || discriminate)).
  destruct (Js.ToBoolean rejected) eqn:Hrej; cbn [trace fst];
    try (rewrite Hc1, Hn1; repeat split; (lia || discriminate)).
  destruct o2 as [jsonResult|err| |err]; cbn [trace fst];
    try (rewrite !invoked_app, Hc, Hn, Hc1, Hn1; repeat split;
         (lia || discriminate)).
  destruct (Js.Get jsonResult "found") as [err|found] eqn:Hget;
    cbn [trace fst];
    [|destruct (Js.ToBoolean found) eqn:Hfound; cbn [trace fst]];
    try (rewrite !invoked_app, Hc, Hn, Hc1, Hn1; repeat split;
         (lia || discriminate)).
  rewrite !invoked_app, !invoked_detached, !invoked_nil, Hc, Hn, Hc1, Hn1, Hc3.
  split; [lia | split; [lia | split]].
  - intros _. exists rejected, jsonResult, found. auto.
  - intros H. apply Hacc. lia.
Qed.

(** X8: [run] throws only when the key derivation does, at once and
    before any call is made; when a key is derived it never throws. Its
    promise is rejected only with the error of the existence request
    (URL building, request or parsing) or with the error of reading
    [found] off the parsed response: a failure of the store never reaches
    the caller. *)
Theorem run_rejects_only_from_the_request this e :
  (forall err,
      outcome (run crypto this e) = Threw err ->
      getStorageKey_ crypto this HAS_REJECTED_ACCOUNT_CREATION e
      = ([], Threw err)
      /\ trace (run crypto this e) = [])
  /\ (forall key,
         outcome (getStorageKey_ crypto this HAS_REJECTED_ACCOUNT_CREATION e)
         = Fulfilled key ->
         forall err, outcome (run crypto this e) <> Threw err)
  /\ forall err,
       outcome (run crypto this e) = Rejected err ->
       outcome (existence_request this e) = Rejected err
       \/ exists jsonResult,
            outcome (existence_request this e) = Fulfilled jsonResult
            /\ Js.Get jsonResult "found" = inl err.
Proof.
  destruct (derivation_failure crypto e) as [failure|] eqn:Hderive.
  { rewrite (run_failed this e Hderive), getStorageKey_eq, Hderive.
    cbn [outcome trace fst snd].
    split; [|split]; intros; try discriminate.
    split; [congruence | reflexivity]. }
  assert (forall err, outcome (run crypto this e) <> Threw err
          /\ (outcome (run crypto this e) = Rejected err ->
              outcome (existence_request this e) = Rejected err
              \/ exists jsonResult,
                   outcome (existence_request this e) = Fulfilled jsonResult
                   /\ Js.Get jsonResult "found" = inl err)) as Hrun.
  { intros err. rewrite run_eq.
    pose proof (hasAssociatedUserAccount_outcome this e) as Hcheck.
    destruct (getStorageData_settles this HAS_REJECTED_ACCOUNT_CREATION e)
      as [[rejected Hread]|[Hread|[err1 [Hfail _]]]]; [| |congruence];
      revert Hread Hcheck;
      destruct (getStorageData_ crypto this HAS_REJECTED_ACCOUNT_CREATION e)
        as [t1 o1];
      destruct (hasAssociatedUserAccount_ crypto this e) as [t2 o2];
      cbn [outcome snd]; intros -> Hcheck;
      [|split; discriminate].
    destruct (Js.ToBoolean rejected); cbn [outcome snd];
      [split; discriminate|].
    destruct o2 as [jsonResult|err0| |err0]; cbn [outcome snd];
      try (split; discriminate).
    - destruct Hcheck as [found ->].
      destruct (Js.ToBoolean found); split; discriminate.
    - split; [discriminate|]. intros [= <-]. exact Hcheck.
    - congruence. }
  split; [|split].
  - intros err H. now apply Hrun in H.
  - intros key _ err. apply Hrun.
  - intros err. apply Hrun.
Qed.

Lemma same_derivation this storageKey e1 e2 :
  outcome (getStorageKey_ crypto this storageKey e1)
  = outcome (getStorageKey_ crypto this storageKey e2) ->
  derivation_failure crypto e1 = derivation_failure crypto e2.
Proof.
  rewrite !getStorageKey_eq.
  destruct (derivation_failure crypto e1), (derivation_failure crypto e2);
    cbn [outcome snd]; congruence.
Qed.

Lemma hasAssociatedUserAccount_same_pingback this e1 e2 :
  derivation_failure crypto e1 = derivation_failure crypto e2 ->
  stringifyForPingback e1 = stringifyForPingback e2 ->
  hasAssociatedUserAccount_ crypto this e1
  = hasAssociatedUserAccount_ crypto this e2.
Proof.
  intros Hderive Hping.
  rewrite !hasAssociatedUserAccount_eq, !getStorageData_eq, Hderive.
  assert (existence_request this e1 = existence_request this e2) as ->.
  { unfold existence_request. now rewrite Hping. }
  assert (forall value,
             setStorageData_ crypto this HAS_PUBLISHER_ACCOUNT e1 value
             = setStorageData_ crypto this HAS_PUBLISHER_ACCOUNT e2 value)
    as Hset.
  { intros value. now rewrite !setStorageData_eq, Hderive. }
  destruct (derivation_failure crypto e2); [reflexivity|].
  destruct (storage_ this) as [s| |] eqn:Hs;
    [destruct (Storage.get_ s _) as [cached| |]| |]; try reflexivity;
    [destruct (Js.is_defined cached); [reflexivity|]| |];
    cbn [Js.is_defined];
    destruct (existence_request this e2) as [t2 [jsonResult|err| |err]];
    try reflexivity;
    (destruct (Js.Get jsonResult "found"); [reflexivity|]);
    now rewrite Hset.
Qed.

(** X9: the content of the entitlement plays no part in the flow beyond
    its pingback text and whether a storage key can be derived from it:
    two entitlements with the same pingback text for which the key
    derivation comes to the same (a key for both, or the same error for
    both) give the same calls and the same outcome. In particular what
    the store remembers for one is found for the other. *)
Theorem run_ignores_entitlement_content this e1 e2 :
  outcome (getStorageKey_ crypto this HAS_REJECTED_ACCOUNT_CREATION e1)
  = outcome (getStorageKey_ crypto this HAS_REJECTED_ACCOUNT_CREATION e2) ->
  stringifyForPingback e1 = stringifyForPingback e2 ->
  run crypto this e1 = run crypto this e2.
Proof.
  intros Hkey Hping. apply same_derivation in Hkey.
  rewrite !run_eq, !getStorageData_eq, Hkey.
  rewrite (hasAssociatedUserAccount_same_pingback this e1 e2 Hkey Hping).
  rewrite !consent_chain_eq, !setStorageData_eq, Hkey. reflexivity.
Qed.

(** *** Over a store that keeps what is set *)

Lemma after_app a b m :
  MemoryStore.after (a ++ b) m = MemoryStore.after b (MemoryStore.after a m).
Proof. unfold MemoryStore.after. now rewrite calls_app, fold_left_app. Qed.

Lemma after_detached chain m :
  MemoryStore.after [Detached chain] m = MemoryStore.after chain m.
Proof. unfold MemoryStore.after. now rewrite calls_detached. Qed.

Lemma derived_key_inj a b : derived_key a = derived_key b -> a = b.
Proof. unfold derived_key. apply string_append_inv_tail. Qed.

Lemma getStorageData_in_memory this m storageKey e :
  derivation_failure crypto e = None ->
  getStorageData_ crypto (with_store this m) storageKey e
  = ([Digest "SHA-256" []; StorageGet (derived_key storageKey)],
     Fulfilled (m (derived_key storageKey))).
Proof. intros H. rewrite (getStorageData_ok _ _ _ H). reflexivity. Qed.

Lemma setStorageData_in_memory this m storageKey e value :
  derivation_failure crypto e = None ->
  setStorageData_ crypto (with_store this m) storageKey e value
  = ([Digest "SHA-256" []; StorageSet (derived_key storageKey) value],
     Fulfilled Js.VUndefined).
Proof. intros H. rewrite (setStorageData_ok _ _ _ _ H). reflexivity. Qed.

Lemma check_derivable this e jsonResult :
  outcome (hasAssociatedUserAccount_ crypto this e) = Fulfilled jsonResult ->
  derivation_failure crypto e = None.
Proof.
  destruct (derivation_failure crypto e) as [err|] eqn:Hderive;
    [|reflexivity].
  rewrite (hasAssociatedUserAccount_failed this e Hderive). discriminate.
Qed.

(** X10: over a store that keeps what is set, a value written under a
    purpose for an entitlement is what a later read under that purpose
    resolves to, for any entitlement, and reads under another purpose are
    unchanged; this for entitlements from which the storage key is
    derived (the derivation uses nothing of the flow object). *)
Theorem write_then_read this m storageKey e value e' key key' :
  outcome (getStorageKey_ crypto this storageKey e) = Fulfilled key ->
  outcome (getStorageKey_ crypto this storageKey e') = Fulfilled key' ->
  outcome
    (getStorageData_ crypto
       (with_store this
          (MemoryStore.after
             (trace (setStorageData_ crypto (with_store this m) storageKey e
                       value)) m))
       storageKey e')
  = Fulfilled value
  /\ forall other,
       other <> storageKey ->
       outcome
         (getStorageData_ crypto
            (with_store this
               (MemoryStore.after
                  (trace (setStorageData_ crypto (with_store this m)
                            storageKey e value)) m))
            other e')
       = outcome (getStorageData_ crypto (with_store this m) other e').
Proof.
  intros Hkey Hkey'.
  apply getStorageKey_derivable in Hkey, Hkey'.
  destruct Hkey as [Hderive _], Hkey' as [Hderive' _].
  rewrite (setStorageData_in_memory _ _ _ _ _ Hderive). split.
  - rewrite (getStorageData_in_memory _ _ _ _ Hderive').
    cbn [outcome snd trace fst].
    unfold MemoryStore.after, calls.
    cbn [flat_map calls_of app fold_left MemoryStore.record].
    unfold MemoryStore.put. now rewrite String.eqb_refl.
  - intros other Hother.
    rewrite !(getStorageData_in_memory _ _ _ _ Hderive').
    cbn [outcome snd trace fst].
    unfold MemoryStore.after, calls.
    cbn [flat_map calls_of app fold_left MemoryStore.record].
    unfold MemoryStore.put.
    destruct (String.eqb_spec (derived_key other) (derived_key storageKey))
      as [Heq|_]; [|reflexivity].
    now apply derived_key_inj in Heq.
Qed.

(** X11: over a store that keeps what is set, once the user has declined
    the prompt the flow is over for good: a later [run], for this or any
    other entitlement from which the storage key is derived, stops after
    reading the rejection flag. *)
Theorem declined_once_never_asked_again
    this m e jsonResult found accepted e' key' :
  Js.ToBoolean (m (derived_key HAS_REJECTED_ACCOUNT_CREATION)) = false ->
  outcome (hasAssociatedUserAccount_ crypto (with_store this m) e)
  = Fulfilled jsonResult ->
  Js.Get jsonResult "found" = inr found ->
  Js.ToBoolean found = false ->
  SubscriptionPlatform.consentDeferredAccountCreation_ (platform_ this)
  = Resolved accepted ->
  Js.ToBoolean accepted = false ->
  outcome (getStorageKey_ crypto this HAS_REJECTED_ACCOUNT_CREATION e')
  = Fulfilled key' ->
  run crypto
    (with_store this
       (MemoryStore.after (trace (run crypto (with_store this m) e)) m))
    e'
  = ([Digest "SHA-256" [];
      StorageGet (derived_key HAS_REJECTED_ACCOUNT_CREATION)],
     Fulfilled Js.VUndefined).
Proof.
  intros Hfalsy Hcheck Hget Hfound Hconsent Hdeclined Hkey'.
  pose proof (check_derivable _ _ Hcheck) as Hderive.
  apply getStorageKey_derivable in Hkey'. destruct Hkey' as [Hderive' _].
  assert (MemoryStore.after (trace (run crypto (with_store this m) e)) m
            (derived_key HAS_REJECTED_ACCOUNT_CREATION) = Js.VBool true)
    as Hstored.
  { rewrite run_eq, (getStorageData_in_memory _ _ _ _ Hderive), Hfalsy.
    revert Hcheck.
    destruct (hasAssociatedUserAccount_ crypto (with_store this m) e)
      as [t2 o2].
    cbn [outcome snd]. intros ->. rewrite Hget, Hfound.
    cbn [trace fst]. rewrite consent_chain_eq.
    cbn [with_store platform_]. rewrite Hconsent, Hdeclined.
    rewrite (setStorageData_in_memory _ _ _ _ _ Hderive). cbn [trace fst].
    rewrite !after_app, after_detached.
    unfold MemoryStore.after at 1. unfold calls.
    cbn [flat_map calls_of app fold_left MemoryStore.record].
    unfold MemoryStore.put at 1. now rewrite String.eqb_refl. }
  rewrite run_eq, (getStorageData_in_memory _ _ _ _ Hderive'), Hstored.
  reflexivity.
Qed.

(** X12: over a store that keeps what is set, the answer of the endpoint
    is asked for once: after a cache miss answered with a [found] other
    than [undefined], a later check, for this or any other entitlement
    from which the storage key is derived, resolves to [{found}] after
    the cache read alone. *)
Theorem second_check_hits_cache this m e jsonResult found e' key key' :
  m (derived_key HAS_PUBLISHER_ACCOUNT) = Js.VUndefined ->
  outcome (existence_request this e) = Fulfilled jsonResult ->
  Js.Get jsonResult "found" = inr found ->
  Js.is_defined found = true ->
  outcome (getStorageKey_ crypto this HAS_PUBLISHER_ACCOUNT e)
  = Fulfilled key ->
  outcome (getStorageKey_ crypto this HAS_PUBLISHER_ACCOUNT e')
  = Fulfilled key' ->
  invoked is_fetch
    (trace (hasAssociatedUserAccount_ crypto (with_store this m) e)) = 1
  /\ hasAssociatedUserAccount_ crypto
       (with_store this
          (MemoryStore.after
             (trace (hasAssociatedUserAccount_ crypto (with_store this m) e))
             m))
       e'
     = ([Digest "SHA-256" []; StorageGet (derived_key HAS_PUBLISHER_ACCOUNT)],
        Fulfilled (Js.VObj [("found", found)])).
Proof.
  intros Hmiss Hreq Hget Hdefined Hkey Hkey'.
  apply getStorageKey_derivable in Hkey, Hkey'.
  destruct Hkey as [Hderive _], Hkey' as [Hderive' _].
  change (existence_request this e)
    with (existence_request (with_store this m) e) in Hreq.
  assert (invoked is_fetch (trace (existence_request (with_store this m) e))
          = 1) as Hfetch.
  { revert Hreq. rewrite existence_request_eq.
    destruct (UrlBuilder.buildUrl_ _ _ _) as [url| |]; try discriminate.
    destruct (Xhr.fetchJson_ _ _ _) as [r| |]; try discriminate.
    reflexivity. }
  assert (hasAssociatedUserAccount_ crypto (with_store this m) e
          = ([Digest "SHA-256" [];
              StorageGet (derived_key HAS_PUBLISHER_ACCOUNT)]
               ++ trace (existence_request (with_store this m) e)
               ++ [Detached
                     [Digest "SHA-256" [];
                      StorageSet (derived_key HAS_PUBLISHER_ACCOUNT) found]],
             Fulfilled jsonResult)) as ->.
  { rewrite hasAssociatedUserAccount_eq,
      (getStorageData_in_memory _ _ _ _ Hderive), Hmiss.
    cbn [Js.is_defined]. revert Hreq.
    destruct (existence_request (with_store this m) e) as [t2 o2].
    cbn [outcome snd]. intros ->.
    rewrite Hget, (setStorageData_in_memory _ _ _ _ _ Hderive).
    reflexivity. }
  cbn [trace fst]. split.
  - rewrite !invoked_app, Hfetch. reflexivity.
  - rewrite hasAssociatedUserAccount_eq,
      (getStorageData_in_memory _ _ _ _ Hderive').
    rewrite !after_app, after_detached.
    unfold MemoryStore.after at 1. unfold calls.
    cbn [flat_map calls_of app fold_left MemoryStore.record].
    unfold MemoryStore.put at 1. rewrite String.eqb_refl, Hdefined.
    reflexivity.
Qed.

(** X13: without a store nothing is read, written or remembered: [run]
    makes no [get] and no [set] call, and, for an entitlement from which
    the storage key is derived, whenever the endpoint answers with a
    falsy [found] the user is prompted, also after a refusal. *)
Theorem without_store_nothing_is_remembered this e err :
  storage_ this = Failed err ->
  invoked is_storage_read (trace (run crypto this e)) = 0
  /\ invoked is_storage_write (trace (run crypto this e)) = 0
  /\ forall key jsonResult found,
       outcome (getStorageKey_ crypto this HAS_REJECTED_ACCOUNT_CREATION e)
       = Fulfilled key ->
       outcome (existence_request this e) = Fulfilled jsonResult ->
       Js.Get jsonResult "found" = inr found ->
       Js.ToBoolean found = false ->
       outcome (run crypto this e) = Fulfilled Js.VUndefined
       /\ invoked is_consent (trace (run crypto this e)) = 1.
Proof.
  intros Hstore.
  destruct (derivation_failure crypto e) as [failure|] eqn:Hderive.
  { rewrite (run_failed this e Hderive). cbn [outcome trace fst snd].
    split; [reflexivity | split; [reflexivity|]].
    intros key jsonResult found Hkey.
    apply getStorageKey_derivable in Hkey. destruct Hkey. congruence. }
  assert (forall value s,
             setStorageData_ crypto this s e value
             = ([Digest "SHA-256" []], Rejected err)) as Hset.
  { intros value s. now rewrite (setStorageData_ok _ _ _ _ Hderive), Hstore. }
  assert (forall s,
             getStorageData_ crypto this s e
             = ([Digest "SHA-256" []], Fulfilled Js.VUndefined)) as Hget.
  { intros s. now rewrite (getStorageData_ok _ _ _ Hderive), Hstore. }
  assert (forall p : Event -> bool,
             p (Digest "SHA-256" []) = false ->
             (forall url auth, p (BuildUrl url auth) = false) ->
             (forall url init, p (FetchJson url init) = false) ->
             p ResponseJson = false ->
             p Consent = false ->
             (forall url, p (NavigateTo url) = false) ->
             invoked p (trace (run crypto this e)) = 0) as Hquiet.
  { intros p Hd Hb Hf Hj Hc Hn.
    pose proof (existence_request_calls this e p Hb Hf Hj) as Hreq.
    rewrite run_eq, hasAssociatedUserAccount_eq, consent_chain_eq, !Hget.
    cbn [Js.ToBoolean Js.is_defined].
    revert Hreq. destruct (existence_request this e) as [t2 o2].
    cbn [outcome trace fst snd]. intros Hreq.
    repeat
      (match goal with
       | |- context [match Js.Get ?j ?n with _ => _ end] =>
           destruct (Js.Get j n)
       | |- context [if Js.ToBoolean ?v then _ else _] =>
           destruct (Js.ToBoolean v)
       | |- context [match ?o with
                     | Fulfilled _ => _ | Rejected _ => _
                     | Pending => _ | Threw _ => _
                     end] => is_var o; destruct o
       | |- context [match ?c with
                     | Resolved _ => _ | Failed _ => _ | Unsettled => _
                     end] => destruct c
       end; rewrite ?Hset; cbn [outcome trace fst snd]).
    all: rewrite ?invoked_app, ?invoked_detached, ?Hreq.
    all: unfold invoked, calls; cbn [flat_map calls_of app filter].
    all: rewrite ?Hd, ?Hc, ?Hn; reflexivity. }
  split; [|split].
  - apply Hquiet; reflexivity.
  - apply Hquiet; reflexivity.
  - intros key jsonResult found _ Hreq Hfound_ Hfound.
    pose proof (existence_request_calls this e is_consent
                  (fun _ _ => eq_refl) (fun _ _ => eq_refl) eq_refl) as Hc.
    rewrite run_eq, hasAssociatedUserAccount_eq, consent_chain_eq, !Hget.
    cbn [Js.ToBoolean Js.is_defined].
    revert Hreq Hc. destruct (existence_request this e) as [t2 o2].
    cbn [outcome trace fst snd]. intros -> Hc.
    rewrite Hfound_. cbn [outcome trace fst snd].
    rewrite Hfound_, Hfound. cbn [outcome trace fst snd].
    split; [reflexivity|].
    destruct (SubscriptionPlatform.consentDeferredAccountCreation_ _)
      as [accepted| |]; [destruct (Js.ToBoolean accepted)| |];
      rewrite ?Hset; cbn [trace fst];
      rewrite ?invoked_app, ?invoked_detached, ?Hc; reflexivity.
Qed.

(** *** Every call of a run *)

Section Every_call.

Variable this : DeferredAccountFlow.
Variable e : Entitlement.t.
Variable P : Event -> Prop.

Hypothesis P_digest : P (Digest "SHA-256" []).
Hypothesis P_get_rejected :
  P (StorageGet (derived_key HAS_REJECTED_ACCOUNT_CREATION)).
Hypothesis P_get_account : P (StorageGet (derived_key HAS_PUBLISHER_ACCOUNT)).
Hypothesis P_set_account :
  forall jsonResult found,
    outcome (existence_request this e) = Fulfilled jsonResult ->
    Js.Get jsonResult "found" = inr found ->
    P (StorageSet (derived_key HAS_PUBLISHER_ACCOUNT) found).
Hypothesis P_set_rejected :
  P (StorageSet (derived_key HAS_REJECTED_ACCOUNT_CREATION) (Js.VBool true)).
Hypothesis P_build : P (BuildUrl (hasAssociatedAccountUrl_ this) true).
Hypothesis P_fetch : forall url init, P (FetchJson url init).
Hypothesis P_json : P ResponseJson.
Hypothesis P_consent : P Consent.
Hypothesis P_navigate : P (NavigateTo (accountCreationRedirectUrl_ this)).

Lemma existence_request_Forall :
  Forall P (calls (trace (existence_request this e))).
Proof.
  rewrite existence_request_eq.
  destruct (UrlBuilder.buildUrl_ _ _ _) as [url| |];
    [destruct (Xhr.fetchJson_ _ _ _) as [r| |]| |];
    unfold calls; cbn [trace fst flat_map calls_of app]; auto.
Qed.

Lemma hasAssociatedUserAccount_Forall :
  Forall P (calls (trace (hasAssociatedUserAccount_ crypto this e))).
Proof.
  rewrite hasAssociatedUserAccount_eq.
  pose proof (getStorageData_Forall this HAS_PUBLISHER_ACCOUNT e P
                P_digest P_get_account) as H1.
  pose proof existence_request_Forall as H2.
  pose proof P_set_account as H3.
  revert H1 H2 H3.
  destruct (getStorageData_ crypto this HAS_PUBLISHER_ACCOUNT e) as [t1 o1].
  destruct (existence_request this e) as [t2 o2].
  cbn [outcome snd trace fst]. intros H1 H2 H3.
  destruct o1 as [cached|err| |err]; cbn [trace fst]; auto.
  destruct (Js.is_defined cached); cbn [trace fst]; auto.
  destruct o2 as [jsonResult|err| |err]; cbn [trace fst];
    try (rewrite calls_app, Forall_app; auto).
  destruct (Js.Get jsonResult "found") as [err|found] eqn:Hfound;
    cbn [trace fst];
    rewrite !calls_app, !Forall_app, ?calls_detached; auto.
  repeat split; auto. apply setStorageData_Forall; eauto.
Qed.

Lemma run_Forall : Forall P (calls (trace (run crypto this e))).
Proof.
  rewrite run_eq.
  pose proof (getStorageData_Forall this HAS_REJECTED_ACCOUNT_CREATION e P
                P_digest P_get_rejected) as H1.
  pose proof hasAssociatedUserAccount_Forall as H2.
  pose proof (consent_chain_Forall this e P P_digest P_set_rejected
                P_consent P_navigate) as H3.
  revert H1 H2.
  destruct (getStorageData_ crypto this HAS_REJECTED_ACCOUNT_CREATION e)
    as [t1 o1].
  destruct (hasAssociatedUserAccount_ crypto this e) as [t2 o2].
  cbn [trace fst]. intros H1 H2.
  destruct o1 as [rejected|err| |err]; cbn [trace fst]; auto.
  destruct (Js.ToBoolean rejected); cbn [trace fst]; auto.
  destruct o2 as [jsonResult|err| |err]; cbn [trace fst];
    try (rewrite calls_app, Forall_app; auto).
  destruct (Js.Get jsonResult "found") as [err|found]; cbn [trace fst];
    [|destruct (Js.ToBoolean found); cbn [trace fst]];
    rewrite !calls_app, !Forall_app, ?calls_detached; auto.
Qed.

End Every_call.

(** X14: whatever the collaborators answer, the calls of a run stay
    within these: SHA-256 digests of the empty buffer; reads under the
    two derived keys; a write under the key of the account flag, of the
    [found] of the parsed response of the request and of nothing else; a
    write of [true] under the key of the rejection flag; [buildUrl] of
    the existence-check URL with auth data; the request and its parsing;
    the prompt; a navigation to the account-creation URL. *)
Theorem run_makes_only_the_expected_calls this e :
  Forall (is_expected_call this e) (calls (trace (run crypto this e))).
Proof.
  apply run_Forall; cbn; eauto.
Qed.

(** X15: when the key derivation throws, and what. [btoa] refuses a
    serialization with a code unit above 255 with an
    [InvalidCharacterError]; otherwise, without [crypto.subtle] the
    digest call throws a [TypeError]; otherwise the key is derived, with
    one digest call. In the first two cases no call is made. *)
Theorem getStorageKey_throws_when this storageKey e :
  getStorageKey_ crypto this storageKey e
  = if Base64.binary (Entitlement.JSON_stringify_json e) then
      match crypto with
      | Some _ =>
          ([Digest "SHA-256" []], Fulfilled (derived_key storageKey))
      | None => ([], Threw Js.TypeError)
      end
    else ([], Threw Js.InvalidCharacterError).
Proof.
  rewrite getStorageKey_eq. unfold derivation_failure, Base64.btoa.
  destruct (Base64.binary (Entitlement.JSON_stringify_json e));
    [destruct crypto|]; reflexivity.
Qed.

End Properties.
(** ** The properties at sample inputs *)



Lemma run_fails_closed_witness :
  outcome (run (Some Sample.identity_digest) Sample.offline_flow Sample.granted)
  = Rejected Sample.offline
  /\ invoked is_consent
       (trace (run (Some Sample.identity_digest) Sample.offline_flow Sample.granted)) = 0
  /\ invoked is_storage_write
       (trace (run (Some Sample.identity_digest) Sample.offline_flow Sample.granted)) = 0.
Proof.
  exact (@run_fails_closed (Some Sample.identity_digest) Sample.offline_flow
           Sample.granted Js.VUndefined Sample.offline eq_refl eq_refl
           (@hasAssociatedUserAccount_failure (Some Sample.identity_digest)
              Sample.offline_flow Sample.granted Sample.offline
              eq_refl eq_refl)).
Defined.

Lemma cache_short_circuit_witness :
  outcome (hasAssociatedUserAccount_ (Some Sample.identity_digest) Sample.known_account_flow
             Sample.granted)
  = Fulfilled (Js.VObj [("found", Js.VBool true)])
  /\ invoked is_network
       (trace (hasAssociatedUserAccount_ (Some Sample.identity_digest)
                 Sample.known_account_flow Sample.granted)) = 0.
Proof.
  exact (@cache_short_circuit (Some Sample.identity_digest) Sample.known_account_flow
           Sample.granted eq_refl).
Defined.

Lemma run_remembers_rejection_witness :
  run (Some Sample.identity_digest) Sample.declined_before_flow Sample.granted
  = ([Digest "SHA-256" [];
      StorageGet (derived_key HAS_REJECTED_ACCOUNT_CREATION)],
     Fulfilled Js.VUndefined)
  /\ invoked is_network
       (trace (run (Some Sample.identity_digest) Sample.declined_before_flow Sample.granted))
     = 0
  /\ invoked is_consent
       (trace (run (Some Sample.identity_digest) Sample.declined_before_flow Sample.granted))
     = 0
  /\ invoked is_navigation
       (trace (run (Some Sample.identity_digest) Sample.declined_before_flow Sample.granted))
     = 0
  /\ invoked is_storage_write
       (trace (run (Some Sample.identity_digest) Sample.declined_before_flow Sample.granted))
     = 0.
Proof.
  exact (@run_remembers_rejection (Some Sample.identity_digest) Sample.declined_before_flow
           Sample.granted
           (Sample.store_with (derived_key HAS_REJECTED_ACCOUNT_CREATION)
              (Js.VBool true))
           (derived_key HAS_REJECTED_ACCOUNT_CREATION)
           eq_refl eq_refl eq_refl).
Defined.



(** The failing input of C8: a write with no store. *)
Lemma setStorageData_rejects_without_store_witness :
  outcome (setStorageData_ (Some Sample.identity_digest) Sample.failing_store_flow
             HAS_REJECTED_ACCOUNT_CREATION Sample.granted (Js.VBool true))
  = Fulfilled Js.VUndefined
  /\ outcome (setStorageData_ (Some Sample.identity_digest) Sample.storeless_flow
                HAS_REJECTED_ACCOUNT_CREATION Sample.granted (Js.VBool true))
     = Rejected Js.TypeError.
Proof.
  split.
  - exact (proj1
             (setStorageData_rejects_without_store (Some Sample.identity_digest)
                Sample.failing_store_flow HAS_REJECTED_ACCOUNT_CREATION Sample.granted
                (Js.VBool true))
             Sample.broken_store (derived_key HAS_REJECTED_ACCOUNT_CREATION)
             Js.TypeError eq_refl eq_refl eq_refl).
  - exact (proj2
             (setStorageData_rejects_without_store (Some Sample.identity_digest)
                Sample.storeless_flow HAS_REJECTED_ACCOUNT_CREATION Sample.granted
                (Js.VBool true))
             (derived_key HAS_REJECTED_ACCOUNT_CREATION) Js.TypeError
             eq_refl eq_refl).
Defined.

Lemma consent_decides_witness :
  (invoked is_navigation
     (trace (run (Some Sample.identity_digest)
               (Sample.asking_flow (Resolved (Js.VBool false))) Sample.granted)) = 0
   /\ invoked
        (writes_true_under (derived_key HAS_REJECTED_ACCOUNT_CREATION))
        (trace (run (Some Sample.identity_digest)
                  (Sample.asking_flow (Resolved (Js.VBool false))) Sample.granted))
      = 1)
  /\ (invoked is_navigation
        (trace (run (Some Sample.identity_digest)
                  (Sample.asking_flow (Resolved (Js.VBool true))) Sample.granted)) = 1
      /\ invoked (navigates_to (Some "https://pub.example/create-account"))
           (trace (run (Some Sample.identity_digest)
                     (Sample.asking_flow (Resolved (Js.VBool true))) Sample.granted))
         = 1
      /\ invoked (writes_under (derived_key HAS_REJECTED_ACCOUNT_CREATION))
           (trace (run (Some Sample.identity_digest)
                     (Sample.asking_flow (Resolved (Js.VBool true))) Sample.granted))
         = 0).
Proof.
  split.
  - pose proof
      (proj1
         (@consent_decides (Some Sample.identity_digest)
            (Sample.asking_flow (Resolved (Js.VBool false))) Sample.granted
            Js.VUndefined (Js.VObj [("found", Js.VBool false)])
            (derived_key HAS_REJECTED_ACCOUNT_CREATION)
            eq_refl eq_refl eq_refl eq_refl eq_refl) eq_refl)
      as (Hnav & _ & Hwrite).
    exact (conj Hnav (Hwrite Sample.empty_store eq_refl)).
  - exact
      (proj2
         (@consent_decides (Some Sample.identity_digest)
            (Sample.asking_flow (Resolved (Js.VBool true))) Sample.granted
            Js.VUndefined (Js.VObj [("found", Js.VBool false)])
            (derived_key HAS_REJECTED_ACCOUNT_CREATION)
            eq_refl eq_refl eq_refl eq_refl eq_refl) eq_refl).
Defined.

(** The failing input of C10: the prompt is never answered. *)
Lemma run_does_not_wait_for_consent_witness :
  outcome (run (Some Sample.identity_digest) (Sample.asking_flow Unsettled) Sample.granted)
  = Fulfilled Js.VUndefined
  /\ invoked is_consent
       (trace (run (Some Sample.identity_digest) (Sample.asking_flow Unsettled)
                 Sample.granted)) = 1
  /\ invoked is_navigation
       (trace (run (Some Sample.identity_digest) (Sample.asking_flow Unsettled)
                 Sample.granted)) = 0
  /\ invoked (writes_under (derived_key HAS_REJECTED_ACCOUNT_CREATION))
       (trace (run (Some Sample.identity_digest) (Sample.asking_flow Unsettled)
                 Sample.granted)) = 0.
Proof.
  pose proof
    (@run_does_not_wait_for_consent (Some Sample.identity_digest)
       (Sample.asking_flow Unsettled) Sample.granted
       Js.VUndefined (Js.VObj [("found", Js.VBool false)]) (Js.VBool false)
       eq_refl eq_refl eq_refl eq_refl eq_refl)
    as (Hout & Hasked & Hopen).
  exact (conj Hout (conj Hasked (Hopen eq_refl))).
Defined.

(** ** The further properties at sample inputs *)

(** A cached [false] is the answer. *)
Lemma cached_value_is_the_answer_witness :
  outcome
    (hasAssociatedUserAccount_ (Some Sample.identity_digest)
       (with_store (Sample.asking_flow Unsettled)
          (MemoryStore.put (derived_key HAS_PUBLISHER_ACCOUNT)
             (Js.VBool false) MemoryStore.empty))
       Sample.granted)
  = Fulfilled (Js.VObj [("found", Js.VBool false)])
  /\ invoked is_network
       (trace
          (hasAssociatedUserAccount_ (Some Sample.identity_digest)
             (with_store (Sample.asking_flow Unsettled)
                (MemoryStore.put (derived_key HAS_PUBLISHER_ACCOUNT)
                   (Js.VBool false) MemoryStore.empty))
             Sample.granted))
     = 0.
Proof.
  pose proof
    (@cached_value_is_the_answer (Some Sample.identity_digest)
       (with_store (Sample.asking_flow Unsettled)
          (MemoryStore.put (derived_key HAS_PUBLISHER_ACCOUNT)
             (Js.VBool false) MemoryStore.empty))
       Sample.granted (Js.VBool false) eq_refl eq_refl)
    as (Hout & _ & Hnet & _).
  exact (conj Hout Hnet).
Defined.

Lemma cache_miss_asks_and_writes_back_witness :
  outcome
    (hasAssociatedUserAccount_ (Some Sample.identity_digest)
       (Sample.asking_flow Unsettled) Sample.granted)
  = Fulfilled More.not_found
  /\ filter is_storage_write
       (calls
          (trace
             (hasAssociatedUserAccount_ (Some Sample.identity_digest)
                (Sample.asking_flow Unsettled) Sample.granted)))
     = [StorageSet (derived_key HAS_PUBLISHER_ACCOUNT) (Js.VBool false)].
Proof.
  pose proof
    (@cache_miss_asks_and_writes_back (Some Sample.identity_digest)
       (Sample.asking_flow Unsettled) Sample.granted
       More.not_found (Js.VBool false) eq_refl eq_refl eq_refl)
    as (Hout & _ & _ & Hset).
  exact (conj Hout (Hset Sample.empty_store eq_refl)).
Defined.

Lemma null_response_rejects_witness :
  outcome
    (hasAssociatedUserAccount_ (Some Sample.identity_digest)
       (More.flow MemoryStore.empty Js.VNull Unsettled) Sample.granted)
  = Rejected Js.TypeError
  /\ invoked is_storage_write
       (trace
          (hasAssociatedUserAccount_ (Some Sample.identity_digest)
             (More.flow MemoryStore.empty Js.VNull Unsettled) Sample.granted))
     = 0.
Proof.
  exact (@null_response_rejects (Some Sample.identity_digest)
           (More.flow MemoryStore.empty Js.VNull Unsettled) Sample.granted
           Js.VNull eq_refl eq_refl (or_introl eq_refl)).
Defined.

Lemma account_found_ends_run_witness :
  outcome
    (run (Some Sample.identity_digest)
       (More.flow MemoryStore.empty More.is_found Unsettled) Sample.granted)
  = Fulfilled Js.VUndefined
  /\ invoked is_consent
       (trace
          (run (Some Sample.identity_digest)
             (More.flow MemoryStore.empty More.is_found Unsettled)
             Sample.granted))
     = 0.
Proof.
  pose proof
    (@account_found_ends_run (Some Sample.identity_digest)
       (More.flow MemoryStore.empty More.is_found Unsettled) Sample.granted
       Js.VUndefined More.is_found (Js.VBool true)
       eq_refl eq_refl eq_refl eq_refl eq_refl)
    as (Hrun & Hconsent & _).
  exact (conj (f_equal snd Hrun) Hconsent).
Defined.

(** The waits, each at a flow where the step in question is pending:
    a store that has not arrived, a request that has not been
    answered. *)
Lemma run_waits_for_each_step_witness :
  (outcome
     (run (Some Sample.identity_digest)
        (Sample.flow Unsettled
           (Sample.answering (Resolved (Sample.found false)))
           (Resolved (Js.VBool true)))
        Sample.granted)
   = Pending
   /\ invoked is_network
        (trace
           (run (Some Sample.identity_digest)
              (Sample.flow Unsettled
                 (Sample.answering (Resolved (Sample.found false)))
                 (Resolved (Js.VBool true)))
              Sample.granted))
      = 0)
  /\ (outcome
        (hasAssociatedUserAccount_ (Some Sample.identity_digest)
           (Sample.flow Unsettled
              (Sample.answering (Resolved (Sample.found false)))
              (Resolved (Js.VBool true)))
           Sample.granted)
      = Pending
      /\ invoked is_network
           (trace
              (hasAssociatedUserAccount_ (Some Sample.identity_digest)
                 (Sample.flow Unsettled
                    (Sample.answering (Resolved (Sample.found false)))
                    (Resolved (Js.VBool true)))
                 Sample.granted))
         = 0)
  /\ (outcome
        (run (Some Sample.identity_digest)
           (Sample.flow (Resolved Sample.empty_store)
              (Sample.answering Unsettled) (Resolved (Js.VBool true)))
           Sample.granted)
      = Pending
      /\ invoked is_consent
           (trace
              (run (Some Sample.identity_digest)
                 (Sample.flow (Resolved Sample.empty_store)
                    (Sample.answering Unsettled) (Resolved (Js.VBool true)))
                 Sample.granted))
         = 0).
Proof.
  split; [|split].
  - pose proof
      (proj1
         (@run_waits_for_each_step (Some Sample.identity_digest)
            (Sample.flow Unsettled
               (Sample.answering (Resolved (Sample.found false)))
               (Resolved (Js.VBool true)))
            Sample.granted) eq_refl)
      as (Hout & Hnet & _).
    exact (conj Hout Hnet).
  - exact
      (proj1 (proj2
         (@run_waits_for_each_step (Some Sample.identity_digest)
            (Sample.flow Unsettled
               (Sample.answering (Resolved (Sample.found false)))
               (Resolved (Js.VBool true)))
            Sample.granted)) eq_refl).
  - pose proof
      (proj2 (proj2
         (@run_waits_for_each_step (Some Sample.identity_digest)
            (Sample.flow (Resolved Sample.empty_store)
               (Sample.answering Unsettled) (Resolved (Js.VBool true)))
            Sample.granted)) Js.VUndefined eq_refl eq_refl eq_refl)
      as (Hout & Hconsent & _).
    exact (conj Hout Hconsent).
Defined.

Lemma run_ignores_entitlement_content_witness :
  Entitlement.JSON_stringify_json Sample.granted
    <> Entitlement.JSON_stringify_json More.other
  /\ run (Some Sample.identity_digest)
       (Sample.asking_flow (Resolved (Js.VBool false))) Sample.granted
     = run (Some Sample.identity_digest)
         (Sample.asking_flow (Resolved (Js.VBool false))) More.other.
Proof.
  split; [discriminate|].
  exact (@run_ignores_entitlement_content (Some Sample.identity_digest)
           (Sample.asking_flow (Resolved (Js.VBool false)))
           Sample.granted More.other eq_refl eq_refl).
Defined.

(** Written for one entitlement, read for another. *)
Lemma write_then_read_witness :
  outcome
    (getStorageData_ (Some Sample.identity_digest)
       (with_store (Sample.asking_flow Unsettled)
          (MemoryStore.after
             (trace
                (setStorageData_ (Some Sample.identity_digest)
                   (with_store (Sample.asking_flow Unsettled)
                      MemoryStore.empty)
                   HAS_REJECTED_ACCOUNT_CREATION Sample.granted
                   (Js.VBool true)))
             MemoryStore.empty))
       HAS_REJECTED_ACCOUNT_CREATION Sample.denied)
  = Fulfilled (Js.VBool true)
  /\ outcome
       (getStorageData_ (Some Sample.identity_digest)
          (with_store (Sample.asking_flow Unsettled)
             (MemoryStore.after
                (trace
                   (setStorageData_ (Some Sample.identity_digest)
                      (with_store (Sample.asking_flow Unsettled)
                         MemoryStore.empty)
                      HAS_REJECTED_ACCOUNT_CREATION Sample.granted
                      (Js.VBool true)))
                MemoryStore.empty))
          HAS_PUBLISHER_ACCOUNT Sample.denied)
     = Fulfilled Js.VUndefined.
Proof.
  pose proof
    (@write_then_read (Some Sample.identity_digest)
       (Sample.asking_flow Unsettled) MemoryStore.empty
       HAS_REJECTED_ACCOUNT_CREATION Sample.granted (Js.VBool true)
       Sample.denied (derived_key HAS_REJECTED_ACCOUNT_CREATION)
       (derived_key HAS_REJECTED_ACCOUNT_CREATION) eq_refl eq_refl)
    as [Hsame Hother].
  split; [exact Hsame|].
  apply (Hother HAS_PUBLISHER_ACCOUNT). discriminate.
Defined.

(** Declined for one entitlement, not asked again for another. *)
Lemma declined_once_never_asked_again_witness :
  run (Some Sample.identity_digest)
    (with_store (Sample.asking_flow (Resolved (Js.VBool false)))
       (MemoryStore.after
          (trace
             (run (Some Sample.identity_digest)
                (with_store (Sample.asking_flow (Resolved (Js.VBool false)))
                   MemoryStore.empty)
                Sample.granted))
          MemoryStore.empty))
    Sample.denied
  = ([Digest "SHA-256" [];
      StorageGet (derived_key HAS_REJECTED_ACCOUNT_CREATION)],
     Fulfilled Js.VUndefined).
Proof.
  exact (@declined_once_never_asked_again (Some Sample.identity_digest)
           (Sample.asking_flow (Resolved (Js.VBool false)))
           MemoryStore.empty Sample.granted More.not_found (Js.VBool false)
           (Js.VBool false) Sample.denied
           (derived_key HAS_REJECTED_ACCOUNT_CREATION)
           eq_refl eq_refl eq_refl eq_refl eq_refl eq_refl eq_refl).
Defined.

Lemma second_check_hits_cache_witness :
  invoked is_fetch
    (trace
       (hasAssociatedUserAccount_ (Some Sample.identity_digest)
          (with_store (More.flow MemoryStore.empty More.is_found Unsettled)
             MemoryStore.empty)
          Sample.granted))
  = 1
  /\ hasAssociatedUserAccount_ (Some Sample.identity_digest)
       (with_store (More.flow MemoryStore.empty More.is_found Unsettled)
          (MemoryStore.after
             (trace
                (hasAssociatedUserAccount_ (Some Sample.identity_digest)
                   (with_store
                      (More.flow MemoryStore.empty More.is_found Unsettled)
                      MemoryStore.empty)
                   Sample.granted))
             MemoryStore.empty))
       Sample.denied
     = ([Digest "SHA-256" []; StorageGet (derived_key HAS_PUBLISHER_ACCOUNT)],
        Fulfilled (Js.VObj [("found", Js.VBool true)])).
Proof.
  exact (@second_check_hits_cache (Some Sample.identity_digest)
           (More.flow MemoryStore.empty More.is_found Unsettled)
           MemoryStore.empty Sample.granted More.is_found (Js.VBool true)
           Sample.denied (derived_key HAS_PUBLISHER_ACCOUNT)
           (derived_key HAS_PUBLISHER_ACCOUNT)
           eq_refl eq_refl eq_refl eq_refl eq_refl eq_refl).
Defined.

Lemma without_store_nothing_is_remembered_witness :
  invoked is_storage_read
    (trace (run (Some Sample.identity_digest) Sample.storeless_flow Sample.granted))
  = 0
  /\ invoked is_storage_write
       (trace (run (Some Sample.identity_digest) Sample.storeless_flow Sample.granted))
     = 0
  /\ invoked is_consent
       (trace (run (Some Sample.identity_digest) Sample.storeless_flow Sample.granted))
     = 1.
Proof.
  pose proof
    (@without_store_nothing_is_remembered (Some Sample.identity_digest)
       Sample.storeless_flow Sample.granted Js.TypeError eq_refl)
    as (Hread & Hwrite & Hask).
  exact (conj Hread
           (conj Hwrite
              (proj2 (Hask (derived_key HAS_REJECTED_ACCOUNT_CREATION)
                        More.not_found (Js.VBool false)
                        eq_refl eq_refl eq_refl eq_refl)))).
Defined.
